(** * Little Man Computer: assembler and simulator (lmc.py)

    A shallow embedding of [src/lmc.py].  Python integers are unbounded and
    are modelled by [Z]; Python lists by [list]; dictionaries by stdpp's
    [gmap]; a raised exception by the [Raise] constructor of [result].
    Methods that mutate [self] return the final object together with the
    value they return or the exception they raise, so that the part of the
    object written before an exception is not lost. *)

From Stdlib Require Import ZArith Lia Bool Ascii String DecimalString DecimalNat.
From stdpp Require Import base option list gmap strings.

(** ** Python primitives used by the program *)

Module Py.

(** The built-in exceptions the program can raise. *)
Inductive exception : Set :=
| KeyError | ValueError | TypeError | IndexError | AssertionError.

(** Outcome of evaluating an expression: a value, or a raised exception. *)
Inductive result (A : Type) : Type :=
| Ok (a : A)
| Raise (e : exception).
Arguments Ok {A} a.
Arguments Raise {A} e.

Definition bind {A B} (r : result A) (k : A -> result B) : result B :=
  match r with
  | Ok a => k a
  | Raise e => Raise e
  end.

Definition raised {A} (r : result A) : Prop := exists e, r = Raise e.

(** [for x in xs: ys.append(f(x))], stopping at the first exception. *)
Fixpoint for_each {A B} (f : A -> result B) (xs : list A) : result (list B) :=
  match xs with
  | [] => Ok []
  | x :: rest =>
      bind (f x) (fun y => bind (for_each f rest) (fun ys => Ok (y :: ys)))
  end.

Section ListIndexing.
Context {A : Type}.
Local Open Scope Z_scope.

(** Python resolves [l[i]]: a negative [i] counts from the end, and an
    index outside [-len(l) .. len(l)-1] raises IndexError. *)
Definition index_of (l : list A) (i : Z) : result nat :=
  let n := Z.of_nat (length l) in
  let j := if i <? 0 then i + n else i in
  if (0 <=? j) && (j <? n) then Ok (Z.to_nat j) else Raise IndexError.

(** [l[i]] *)
Definition getitem (l : list A) (i : Z) : result A :=
  bind (index_of l i) (fun j =>
    match l !! j with
    | Some x => Ok x
    | None => Raise IndexError
    end).

(** [l[i] = x] *)
Definition setitem (l : list A) (i : Z) (x : A) : result (list A) :=
  bind (index_of l i) (fun j => Ok (<[j := x]> l)).
End ListIndexing.

(** *** Strings

    A source text is ASCII: a character is a code point below 128, and
    the methods of [str] are embedded as they act on those.  (Rocq's
    [ascii] has eight bits; the codes from 128 on are treated as ordinary
    characters that are neither white space, digits nor letters.) *)

Definition code (c : ascii) : nat := nat_of_ascii c.

Definition between (lo hi : nat) (c : ascii) : bool :=
  (lo <=? code c)%nat && (code c <=? hi)%nat.

(** White space for [str.strip] and [str.split]: TAB, LF, VT, FF, CR,
    the separators FS, GS, RS, US, and the space. *)
Definition isspace (c : ascii) : bool := between 9 13 c || between 28 32 c.

Definition isdigit (c : ascii) : bool := between 48 57 c.

Definition upper_char (c : ascii) : ascii :=
  if between 97 122 c then ascii_of_nat (code c - 32) else c.

(** [s.upper()] *)
Fixpoint upper (s : string) : string :=
  match s with
  | EmptyString => EmptyString
  | String c r => String (upper_char c) (upper r)
  end.

(** [s.replace(old, new)] for one-character [old] and [new] *)
Fixpoint replace_char (old new : ascii) (s : string) : string :=
  match s with
  | EmptyString => EmptyString
  | String c r =>
      String (if Ascii.eqb c old then new else c) (replace_char old new r)
  end.

Fixpoint lstrip (s : string) : string :=
  match s with
  | EmptyString => EmptyString
  | String c r => if isspace c then lstrip r else s
  end.

Fixpoint rstrip (s : string) : string :=
  match s with
  | EmptyString => EmptyString
  | String c r =>
      match rstrip r with
      | EmptyString => if isspace c then EmptyString else String c EmptyString
      | r' => String c r'
      end
  end.

(** [s.strip()] *)
Definition strip (s : string) : string := rstrip (lstrip s).

(** [s.startswith(p)] *)
Definition startswith (s p : string) : bool := String.prefix p s.

(** The fields of [s] between the occurrences of [sep], found from the
    left and not overlapping: the first field and the list of the others.
    [skip] counts the characters of a matched separator still to pass. *)
Fixpoint split_go (sep : string) (skip : nat) (s : string)
  : string * list string :=
  match s with
  | EmptyString => (EmptyString, [])
  | String c r =>
      match skip with
      | S k => split_go sep k r
      | O =>
          if String.prefix sep s
          then let '(w, ws) := split_go sep (String.length sep - 1) r in
               (EmptyString, w :: ws)
          else let '(w, ws) := split_go sep 0 r in (String c w, ws)
      end
  end.

(** [s.split(sep)]: an empty separator raises ValueError. *)
Definition split (sep s : string) : result (list string) :=
  if String.eqb sep EmptyString then Raise ValueError
  else let '(w, ws) := split_go sep 0 s in Ok (w :: ws).

Definition cons_word (w : string) (ws : list string) : list string :=
  if String.eqb w EmptyString then ws else w :: ws.

(** The word that starts at the head of [s] (empty when [s] starts with
    white space) and the words after it. *)
Fixpoint words_go (s : string) : string * list string :=
  match s with
  | EmptyString => (EmptyString, [])
  | String c r =>
      let '(w, ws) := words_go r in
      if isspace c then (EmptyString, cons_word w ws) else (String c w, ws)
  end.

(** [s.split()]: the maximal runs of characters that are not white space. *)
Definition split_whitespace (s : string) : list string :=
  let '(w, ws) := words_go s in cons_word w ws.

Fixpoint all_digits (s : string) : bool :=
  match s with
  | EmptyString => true
  | String c r => isdigit c && all_digits r
  end.

(** [s.isnumeric()]: at least one character, all of them numeric. *)
Definition isnumeric (s : string) : bool :=
  negb (String.eqb s EmptyString) && all_digits s.

(** [str(n)] for a non-negative integer *)
Definition str (n : nat) : string := NilZero.string_of_uint (Nat.to_uint n).

(** The digits of an integer literal: a single underscore may stand
    between two digits.  [after_digit] tells whether the previous
    character was a digit. *)
Fixpoint literal_digits (after_digit : bool) (s : string) : option string :=
  match s with
  | EmptyString => if after_digit then Some EmptyString else None
  | String c r =>
      if isdigit c then String c <$> literal_digits true r
      else if Ascii.eqb c "_"%char && after_digit then literal_digits false r
      else None
  end.

Definition unsigned_literal (s : string) : option Z :=
  d ← literal_digits false s;
  u ← NilZero.uint_of_string d;
  Some (Z.of_nat (Nat.of_uint u)).

(** [int(s)] for a string, base ten: white space around the literal is
    ignored, a sign may come first; anything else raises ValueError. *)
Definition int (s : string) : result Z :=
  let v :=
    match strip s with
    | String c r =>
        if Ascii.eqb c "+"%char then unsigned_literal r
        else if Ascii.eqb c "-"%char then Z.opp <$> unsigned_literal r
        else unsigned_literal (String c r)
    | EmptyString => None
    end in
  match v with
  | Some z => Ok z
  | None => Raise ValueError
  end.

(** Truth value of an object that is [None] or a string. *)
Definition truthy (o : option string) : bool :=
  match o with
  | Some s => negb (String.eqb s EmptyString)
  | None => false
  end.

End Py.

Import Py.

(** ** class Assembler *)

Record Assembler : Type := mkAssembler {
  comment_delimeter : string
}.

(** The dictionary [self.instructions], the same in every assembler. *)
Definition instructions : gmap string (option Z) :=
  list_to_map
    [ ("ADD", Some 100%Z); ("SUB", Some 200%Z); ("STA", Some 300%Z);
      ("LDA", Some 500%Z); ("BRA", Some 600%Z); ("BRZ", Some 700%Z);
      ("BRP", Some 800%Z); ("INP", Some 901%Z); ("OUT", Some 902%Z);
      ("HLT", Some 0%Z); ("DAT", None) ].

(** [k in self.instructions.keys()] *)
Definition is_mnemonic (k : string) : bool :=
  match instructions !! k with
  | Some _ => true
  | None => false
  end.

(** A tokenised line: label, mnemonic, operand, each possibly [None]. *)
Definition tokenised : Type :=
  (option string * option string * option string)%type.

(** The loop of [_normalise] over the lines of the program. *)
Fixpoint normalise_loop (self : Assembler) (raw : list string)
  : result (list string) :=
  match raw with
  | [] => Ok []
  | line :: rest =>
      let line := strip (replace_char "009"%char " "%char line) in
      if String.eqb line "" || startswith line (comment_delimeter self)
      then normalise_loop self rest
      else
        bind (split (comment_delimeter self) line) (fun fields =>
        bind (getitem fields 0) (fun line =>
        bind (normalise_loop self rest) (fun lines =>
        Ok (strip line :: lines))))
  end.

Definition _normalise (self : Assembler) (program : string)
  : result (list string) :=
  bind (split (String "010"%char "") program) (normalise_loop self).

(** One turn of the loop of [_tokenise]: [None] is its [continue]. *)
Definition tokenise_line (line : string) : option tokenised :=
  match split_whitespace line with
  | [] => None
  | [t0] => Some (None, Some (upper t0), None)
  | [t0; t1] =>
      if is_mnemonic (upper t0) then Some (None, Some (upper t0), Some t1)
      else if is_mnemonic (upper t1) then Some (Some t0, Some (upper t1), None)
      else Some (None, None, None)
  | [t0; t1; t2] => Some (Some t0, Some (upper t1), Some t2)
  | _ => Some (None, None, None)
  end.

Definition _tokenise (lines : list string) : list tokenised :=
  omap tokenise_line lines.

(** The first loop of [_unlabel_lines]; [mailbox] is the position that
    [enumerate] gives to the head of [lines]. *)
Fixpoint label_loop (labels : gmap string nat) (mailbox : nat)
    (lines : list tokenised) : gmap string nat :=
  match lines with
  | [] => labels
  | (label, _, _) :: rest =>
      let labels :=
        match label with
        | Some l => if truthy label then <[l := mailbox]> labels else labels
        | None => labels
        end in
      label_loop labels (S mailbox) rest
  end.

Definition is_DAT (mnemonic : option string) : bool :=
  bool_decide (mnemonic = Some "DAT").

(** One turn of the second loop of [_unlabel_lines]. *)
Definition unlabel_line (labels : gmap string nat) (line : tokenised)
  : result (option string * option string) :=
  let '(label, mnemonic, operand) := line in
  match operand with
  | Some o =>
      if truthy operand && negb (isnumeric o) && negb (is_DAT mnemonic)
      then match labels !! o with
           | Some mailbox => Ok (mnemonic, Some (str mailbox))
           | None => Raise KeyError
           end
      else Ok (mnemonic, operand)
  | None => Ok (mnemonic, operand)
  end.

Definition _unlabel_lines (lines : list tokenised)
  : result (list (option string * option string)) :=
  let labels := label_loop ∅ 0 lines in
  for_each (unlabel_line labels) lines.

Definition takes_operand (opcode : Z) : bool :=
  bool_decide (opcode ∈ [100; 200; 300; 500; 600; 700; 800]%Z).

(** One turn of the loop of [_generate_machine_code]. *)
Definition generate_line (line : option string * option string) : result Z :=
  let '(mnemonic, operand) := line in
  if is_DAT mnemonic then
    match operand with
    | Some o => if truthy operand then int o else Ok 0%Z
    | None => Ok 0%Z
    end
  else
    match mnemonic ≫= (instructions !!.) with
    | None => Raise KeyError
    | Some None => Ok 0%Z (* the value None belongs to "DAT" alone *)
    | Some (Some opcode) =>
        if takes_operand opcode then
          match operand with
          | Some o => bind (int o) (fun n => Ok (opcode + n)%Z)
          | None => Raise TypeError
          end
        else Ok opcode
    end.

Definition _generate_machine_code (lines : list (option string * option string))
  : result (list Z) :=
  for_each generate_line lines.

Definition assemble (self : Assembler) (program : string) : result (list Z) :=
  bind (_normalise self program) (fun normalised_program =>
  let tokenised_lines := _tokenise normalised_program in
  bind (_unlabel_lines tokenised_lines) (fun unlabelled_lines =>
  _generate_machine_code unlabelled_lines)).

(** ** class Simulator *)

Record Simulator : Type := mkSimulator {
  pc : Z;
  acc : Z;
  mailboxes : list Z;
  halted : bool;
  awaiting_input : bool
}.

Definition set_pc (self : Simulator) (v : Z) : Simulator :=
  mkSimulator v (acc self) (mailboxes self) (halted self) (awaiting_input self).
Definition set_acc (self : Simulator) (v : Z) : Simulator :=
  mkSimulator (pc self) v (mailboxes self) (halted self) (awaiting_input self).
Definition set_mailboxes (self : Simulator) (v : list Z) : Simulator :=
  mkSimulator (pc self) (acc self) v (halted self) (awaiting_input self).
Definition set_halted (self : Simulator) (v : bool) : Simulator :=
  mkSimulator (pc self) (acc self) (mailboxes self) v (awaiting_input self).
Definition set_awaiting_input (self : Simulator) (v : bool) : Simulator :=
  mkSimulator (pc self) (acc self) (mailboxes self) (halted self) v.

(** What a method leaves behind: the object, and the value or exception. *)
Definition outcome (A : Type) : Type := (Simulator * result A)%type.

(** [reset] assigns all five attributes; it is also what [__init__] runs. *)
Definition reset (self : Simulator) : Simulator :=
  mkSimulator 0 0 (replicate 100 0%Z) false false.

(** The attribute [mailboxes] is created with 100 entries by [reset] and is
    only ever written by index, so every reachable object has 100 of them. *)
Definition well_formed (self : Simulator) : Prop :=
  length (mailboxes self) = 100.

(** The body of the loop of [load_program], over the indices of [range]. *)
Fixpoint load_loop (mb program : list Z) (indices : list nat)
  : list Z * result unit :=
  match indices with
  | [] => (mb, Ok tt)
  | i :: rest =>
      match getitem program (Z.of_nat i) with
      | Raise e => (mb, Raise e)
      | Ok v =>
          match setitem mb (Z.of_nat i) v with
          | Raise e => (mb, Raise e)
          | Ok mb' => load_loop mb' program rest
          end
      end
  end.

Definition load_program (self : Simulator) (program : list Z) : outcome unit :=
  let n := Nat.min (length (mailboxes self)) (length program) in
  match load_loop (mailboxes self) program (seq 0 n) with
  | (mb, Raise e) => (set_mailboxes self mb, Raise e)
  | (mb, Ok _) => (set_halted (set_mailboxes self mb) false, Ok tt)
  end.

(** [assert value <= 999] raises AssertionError when the test fails
    (assertions are enabled unless the interpreter runs with -O);
    [int(value)] is the identity on an integer. *)
Definition load_input (self : Simulator) (value : Z) : outcome unit :=
  if (value <=? 999)%Z
  then (set_awaiting_input (set_acc self value) false, Ok tt)
  else (self, Raise AssertionError).

Definition _fetch (self : Simulator) : result Z :=
  getitem (mailboxes self) (pc self).

(** [divmod] floors, as [Z.div] and [Z.modulo] do. *)
Definition _decode (instruction : Z) : Z * Z :=
  let opcode := (instruction / 100)%Z in
  let operand := (instruction mod 100)%Z in
  if (opcode =? 9)%Z then (opcode * 100 + operand, 0)%Z else (opcode, operand).

Definition _execute (self : Simulator) (opcode operand : Z)
  : outcome (option Z) :=
  let self := set_pc self (pc self + 1) in
  if (opcode =? 0)%Z then (set_halted self true, Ok None)
  else if (opcode =? 1)%Z then
    match getitem (mailboxes self) operand with
    | Ok v => (set_acc self (acc self + v), Ok None)
    | Raise e => (self, Raise e)
    end
  else if (opcode =? 2)%Z then
    match getitem (mailboxes self) operand with
    | Ok v => (set_acc self (acc self - v), Ok None)
    | Raise e => (self, Raise e)
    end
  else if (opcode =? 3)%Z then
    match setitem (mailboxes self) operand (acc self) with
    | Ok mb => (set_mailboxes self mb, Ok None)
    | Raise e => (self, Raise e)
    end
  else if (opcode =? 5)%Z then
    match getitem (mailboxes self) operand with
    | Ok v => (set_acc self v, Ok None)
    | Raise e => (self, Raise e)
    end
  else if (opcode =? 6)%Z then (set_pc self operand, Ok None)
  else if (opcode =? 7)%Z then
    if (acc self =? 0)%Z then (set_pc self operand, Ok None) else (self, Ok None)
  else if (opcode =? 8)%Z then
    if (acc self >=? 0)%Z then (set_pc self operand, Ok None) else (self, Ok None)
  else if (opcode =? 901)%Z then
    (set_acc (set_awaiting_input self true) 0, Ok None)
  else if (opcode =? 902)%Z then (self, Ok (Some (acc self)))
  else (self, Ok None).

(** A halted machine falls off the end of [step], which returns [None]. *)
Definition step (self : Simulator) : outcome (option Z) :=
  if negb (halted self) then
    match _fetch self with
    | Raise e => (self, Raise e)
    | Ok instruction =>
        let '(opcode, operand) := _decode instruction in
        _execute self opcode operand
    end
  else (self, Ok None).

(** Which opcodes [_execute] has a branch for. *)
Definition dispatched (opcode : Z) : bool :=
  bool_decide (opcode ∈ [0; 1; 2; 3; 5; 6; 7; 8; 901; 902]%Z).

(** A freshly constructed simulator. *)
Definition idle : Simulator := reset (mkSimulator 0 0 [] false false).

(** ** cli.py: the loop of [main]

    [main] reads the source file, assembles it, loads the code into a new
    simulator and then runs the loop below; only the loop is embedded,
    with what it prints, in order, and the lines it reads from standard
    input.  [fuel] bounds the number of iterations, since a program may
    run for ever. *)

(** What the loop writes: a value returned by [step], the prompt of
    [input], the banner. *)
Inductive printed : Set :=
| Value (v : Z)
| Prompt
| Banner.

(** How the loop ends: [sim.halted] holds; an exception escapes ([main]
    catches none); [input] meets the end of the input (EOFError); or the
    fuel of the model is used up. *)
Inductive ending : Set :=
| Finished
| Uncaught (e : exception)
| EndOfInput
| OutOfFuel.

(** [x = int(input("INPUT> ")); sim.load_input(x)] *)
Definition read_input (sim : Simulator) (stdin : list string)
  : Simulator * list string * option ending :=
  match stdin with
  | [] => (sim, [], Some EndOfInput)
  | line :: rest =>
      match int line with
      | Raise e => (sim, rest, Some (Uncaught e))
      | Ok x =>
          match load_input sim x with
          | (sim', Ok _) => (sim', rest, None)
          | (sim', Raise e) => (sim', rest, Some (Uncaught e))
          end
      end
  end.

Fixpoint main_loop (fuel : nat) (sim : Simulator) (stdin : list string)
  : Simulator * list string * list printed * ending :=
  if halted sim then (sim, stdin, [], Finished)
  else
    match fuel with
    | O => (sim, stdin, [], OutOfFuel)
    | S fuel =>
        match step sim with
        | (sim, Raise e) => (sim, stdin, [], Uncaught e)
        | (sim, Ok output) =>
            let shown :=
              match output with
              | Some v => [Value v]
              | None => []
              end in
            if awaiting_input sim then
              match read_input sim stdin with
              | (sim, stdin, Some e) => (sim, stdin, shown ++ [Prompt], e)
              | (sim, stdin, None) =>
                  let banner := if halted sim then [Banner] else [] in
                  let '(sim', stdin', out, e) := main_loop fuel sim stdin in
                  (sim', stdin', shown ++ [Prompt] ++ banner ++ out, e)
              end
            else
              let banner := if halted sim then [Banner] else [] in
              let '(sim', stdin', out, e) := main_loop fuel sim stdin in
              (sim', stdin', shown ++ banner ++ out, e)
        end
    end.

(** The prompt that [input] wrote before it met the end of the input. *)
Definition unanswered (e : ending) : nat :=
  match e with
  | EndOfInput => 1
  | _ => 0
  end.

Definition prompts (out : list printed) : nat :=
  length (List.filter (fun p => match p with Prompt => true | _ => false end)
            out).

(** ** Notions the properties are stated with *)

(** The assembler as [cli.py] and [gui.py] construct it. *)
Definition lmc : Assembler := mkAssembler "#".

Definition nl : string := String "010"%char "".

(** The mnemonics, the keys of [instructions]. *)
Definition mnemonics : list string :=
  ["ADD"; "SUB"; "STA"; "LDA"; "BRA"; "BRZ"; "BRP"; "INP"; "OUT"; "HLT"; "DAT"].

(** The lines of a source text, as [program.split("\n")] cuts them. *)
Definition source_lines (program : string) : list string :=
  let '(w, ws) := split_go nl 0 program in w :: ws.

(** A source line that is neither empty nor a comment once its tabs are
    replaced and the white space around it is removed. *)
Definition is_code_line (self : Assembler) (raw : string) : bool :=
  let line := strip (replace_char "009"%char " "%char raw) in
  negb (String.eqb line "") && negb (startswith line (comment_delimeter self)).

Definition count_code_lines (self : Assembler) (program : string) : nat :=
  length (List.filter (is_code_line self) (source_lines program)).

(** Every operand of the tokenised program is a numeric literal. *)
Definition numeric_operands (lines : list tokenised) : bool :=
  forallb (fun line : tokenised =>
             match line.2 with
             | Some o => isnumeric o
             | None => true
             end) lines.

(** Line [k] carries the label [L]. *)
Definition defines (lines : list tokenised) (L : string) (k : nat) : Prop :=
  exists mnemonic operand, lines !! k = Some (Some L, mnemonic, operand).

(** The operand [L] of a line with this mnemonic is taken for a label. *)
Definition is_reference (mnemonic : option string) (L : string) : bool :=
  truthy (Some L) && negb (isnumeric L) && negb (is_DAT mnemonic).

(** The mnemonics whose opcode [_generate_machine_code] adds the operand
    to. *)
Definition operand_taking : list string :=
  ["ADD"; "SUB"; "STA"; "LDA"; "BRA"; "BRZ"; "BRP"].


(** [sep] occurs in [s] as a substring. *)
Fixpoint occurs (sep s : string) : bool :=
  String.prefix sep s
  || match s with
     | EmptyString => false
     | String _ r => occurs sep r
     end.

Definition tab : string := String "009"%char "".

(** A line as [_normalise] leaves it: not empty, without white space
    around it, without the comment delimiter and without a tab. *)
Definition clean_line (self : Assembler) (line : string) : Prop :=
  line <> ""
  /\ strip line = line
  /\ occurs (comment_delimeter self) line = false
  /\ occurs tab line = false.

(** Sample programs. *)

Definition countdown_source : string :=
  "INP" +:+ nl +:+ "# count down" +:+ nl +:+ nl +:+ "  OUT" +:+ nl
  +:+ "SUB 9 # one" +:+ nl +:+ "BRP 1" +:+ nl +:+ "HLT".

Definition long_line_source : string := "ADD 1 2 3" +:+ nl +:+ "HLT".

Definition jump_lines : list tokenised :=
  [ (None, Some "BRA", Some "end");
    (None, Some "OUT", None);
    (Some "end", Some "HLT", None);
    (None, Some "BRZ", Some "end") ].



(** * Properties of the simulator *)

Section ListIndexingFacts.
Context {A : Type}.
Implicit Types (l : list A) (i : Z).

Lemma index_of_in_range l i :
  (0 <= i < Z.of_nat (length l))%Z -> index_of l i = Ok (Z.to_nat i).
Proof.
  intros [Hlo Hhi]. unfold index_of.
  destruct (Z.ltb_spec i 0) as [Hneg|_]; [lia|].
  destruct (Z.leb_spec 0 i) as [_|Hneg]; [|lia].
  destruct (Z.ltb_spec i (Z.of_nat (length l))) as [_|Hge]; [|lia].
  reflexivity.
Qed.

Lemma getitem_in_range l i x :
  (0 <= i)%Z -> l !! Z.to_nat i = Some x -> getitem l i = Ok x.
Proof.
  intros Hlo Hx. unfold getitem.
  rewrite index_of_in_range.
  - simpl. rewrite Hx. reflexivity.
  - apply lookup_lt_Some in Hx. lia.
Qed.

Lemma getitem_total l i :
  (0 <= i < Z.of_nat (length l))%Z -> exists x, getitem l i = Ok x.
Proof.
  intros Hi.
  destruct (lookup_lt_is_Some_2 l (Z.to_nat i)) as [x Hx]; [lia|].
  exists x. apply getitem_in_range; [lia | exact Hx].
Qed.

Lemma setitem_in_range l i x :
  (0 <= i < Z.of_nat (length l))%Z ->
  setitem l i x = Ok (<[Z.to_nat i := x]> l).
Proof.
  intros Hi. unfold setitem. rewrite index_of_in_range by exact Hi.
  reflexivity.
Qed.
End ListIndexingFacts.

(** The loop of [load_program] over [range(a, a + k)] overwrites exactly
    that slice and cannot raise while the slice lies inside both lists. *)
Lemma load_loop_slice (k : nat) :
  forall (a : nat) (mb program : list Z),
    a + k <= length mb -> a + k <= length program ->
    load_loop mb program (seq a k)
    = (take a mb ++ take k (drop a program) ++ drop (a + k) mb, Ok tt).
Proof.
  induction k as [|k IH]; intros a mb program Hmb Hprog; simpl.
  - rewrite Nat.add_0_r, take_drop. reflexivity.
  - destruct (lookup_lt_is_Some_2 program a) as [x Hx]; [lia|].
    rewrite (getitem_in_range program (Z.of_nat a) x)
      by (rewrite ?Nat2Z.id; solve [lia | exact Hx]).
    rewrite setitem_in_range by lia.
    rewrite Nat2Z.id, IH by (rewrite ?length_insert; lia).
    f_equal.
    rewrite (drop_S program x a Hx). simpl.
    rewrite drop_insert_lt by lia.
    rewrite (take_S_r (<[a:=x]> mb) a x)
      by (apply list_lookup_insert_eq; lia).
    rewrite take_insert_ge by lia.
    rewrite <- app_assoc. simpl.
    replace (S (a + k)) with (a + S k) by lia. reflexivity.
Qed.

Lemma execute_not_dispatched (self : Simulator) (opcode operand : Z) :
  dispatched opcode = false ->
  _execute self opcode operand = (set_pc self (pc self + 1), Ok None).
Proof.
  unfold dispatched. intros Hd. apply bool_decide_eq_false in Hd.
  unfold _execute.
  repeat match goal with
  | |- context [(opcode =? ?c)%Z] =>
      destruct (Z.eqb_spec opcode c) as [->|_];
      [exfalso; apply Hd; set_solver|]
  end.
  reflexivity.
Qed.

Lemma decode_operand_range (instruction : Z) :
  (0 <= snd (_decode instruction) <= 99)%Z.
Proof.
  unfold _decode. pose proof (Z.mod_pos_bound instruction 100 ltac:(lia)).
  destruct (instruction / 100 =? 9)%Z; simpl; lia.
Qed.

(** With an operand inside the mailboxes, no branch of [_execute] raises,
    and the number of mailboxes stays the same. *)
Lemma execute_in_range (self : Simulator) (opcode operand : Z) :
  (0 <= operand < Z.of_nat (length (mailboxes self)))%Z ->
  exists self' r,
    _execute self opcode operand = (self', Ok r)
    /\ length (mailboxes self') = length (mailboxes self).
Proof.
  intros Hop. unfold _execute.
  destruct (getitem_total (mailboxes self) operand Hop) as [v Hv].
  repeat match goal with
  | |- context [if ?b then _ else _] => destruct b
  end; simpl; rewrite ?Hv, ?setitem_in_range by exact Hop;
    eexists _, _; (split; [reflexivity | simpl; rewrite ?length_insert; reflexivity]).
Qed.

(** C1: when the accumulator is zero, BRZ (opcode 7) and BRP (opcode 8)
    with an operand [n] between 0 and 99 both leave [pc] equal to [n]
    instead of the incremented value, and change nothing else; 700 + n and
    800 + n are the instructions that decode to them. *)
Theorem brz_brp_agree_at_zero (self : Simulator) (n : Z) :
  acc self = 0%Z -> (0 <= n <= 99)%Z ->
  _decode (700 + n) = (7, n)%Z
  /\ _decode (800 + n) = (8, n)%Z
  /\ _execute self 7 n = (set_pc self n, Ok None)
  /\ _execute self 8 n = (set_pc self n, Ok None)
  /\ pc (fst (_execute self 7 n)) = n
  /\ pc (fst (_execute self 8 n)) = n.
Proof.
  intros Hacc Hn.
  assert (H7 : ((700 + n) / 100 = 7)%Z) by (symmetry; apply Z.div_unique with n; lia).
  assert (H8 : ((800 + n) / 100 = 8)%Z) by (symmetry; apply Z.div_unique with n; lia).
  assert (M7 : ((700 + n) mod 100 = n)%Z) by (symmetry; apply Z.mod_unique with 7%Z; lia).
  assert (M8 : ((800 + n) mod 100 = n)%Z) by (symmetry; apply Z.mod_unique with 8%Z; lia).
  unfold _decode, _execute. rewrite H7, H8, M7, M8. simpl.
  rewrite Hacc. simpl. unfold set_pc; simpl. rewrite Hacc. auto 10.
Qed.

Lemma brz_brp_agree_at_zero_witness :
  _execute idle 7 42 = (set_pc idle 42, Ok None)
  /\ _execute idle 8 42 = (set_pc idle 42, Ok None).
Proof.
  pose proof (brz_brp_agree_at_zero idle 42 eq_refl ltac:(lia)) as H.
  split; apply H.
Defined.

(** C4: on a halted machine [step] returns [None], raises nothing, and
    leaves [pc], [acc], the mailboxes and both flags as they were. *)
Theorem step_halted_noop (self : Simulator) :
  halted self = true -> step self = (self, Ok None).
Proof. intros H. unfold step. rewrite H. reflexivity. Qed.

Lemma step_halted_noop_witness :
  step (set_halted idle true) = (set_halted idle true, Ok None).
Proof. apply (step_halted_noop (set_halted idle true)). reflexivity. Defined.

(** C5: on a machine with 100 mailboxes, [load_program] raises nothing,
    writes the first min(100, len(code)) values of [code] to the mailboxes
    of the same index, keeps every mailbox from index len(code) on, clears
    [halted], and keeps [pc], [acc] and [awaiting_input]. *)
Theorem load_program_frame (self : Simulator) (code : list Z) :
  well_formed self ->
  exists mb,
    load_program self code
    = (mkSimulator (pc self) (acc self) mb false (awaiting_input self), Ok tt)
    /\ mb = take 100 code ++ drop (Nat.min 100 (length code)) (mailboxes self)
    /\ length mb = 100
    /\ (forall i, i < Nat.min 100 (length code) -> mb !! i = code !! i)
    /\ (forall i, length code <= i -> mb !! i = mailboxes self !! i).
Proof.
  unfold well_formed. intros Hwf.
  set (k := Nat.min 100 (length code)).
  assert (Hk : k <= 100 /\ k <= length code) by (subst k; lia).
  exists (take 100 code ++ drop k (mailboxes self)).
  assert (Htake : take 100 code = take k code).
  { subst k. destruct (Nat.le_ge_cases 100 (length code)) as [Hle|Hle].
    - rewrite Nat.min_l by exact Hle. reflexivity.
    - rewrite Nat.min_r by exact Hle. rewrite !take_ge by lia. reflexivity. }
  split; [|split; [reflexivity|split; [|split]]].
  - unfold load_program. rewrite Hwf. fold k.
    rewrite (load_loop_slice k 0) by (simpl; lia).
    simpl. rewrite drop_0, Htake. reflexivity.
  - rewrite Htake, length_app, length_take, length_drop. lia.
  - intros i Hi. rewrite Htake, lookup_app_l by (rewrite length_take; lia).
    apply lookup_take_lt. lia.
  - intros i Hi. rewrite Htake.
    destruct (Nat.lt_ge_cases i 100) as [Hlt|Hge].
    + assert (k = length code) by (subst k; lia).
      rewrite lookup_app_r by (rewrite length_take; lia).
      rewrite length_take, lookup_drop. f_equal. lia.
    + rewrite !lookup_ge_None_2; [reflexivity | lia |].
      rewrite length_app, length_take, length_drop. lia.
Qed.

Lemma load_program_frame_witness :
  exists mb,
    load_program (set_halted idle true) [901; 902; 0]%Z
    = (mkSimulator 0 0 mb false false, Ok tt)
    /\ mb !! 1 = Some 902%Z.
Proof.
  destruct (load_program_frame (set_halted idle true) [901; 902; 0]%Z eq_refl)
    as (mb & Hrun & Hmb & _).
  exists mb. split; [exact Hrun | subst mb; reflexivity].
Defined.

(** C6: [load_input] raises (AssertionError) exactly when the value
    exceeds 999; for every other value, negative ones too, it stores the
    value in [acc], clears [awaiting_input] and keeps [pc], the mailboxes
    and [halted]; when it raises, the machine is as it was. *)
Theorem load_input_contract (self : Simulator) (value : Z) :
  (raised (snd (load_input self value)) <-> (value > 999)%Z)
  /\ ((value <= 999)%Z ->
      load_input self value
      = (mkSimulator (pc self) value (mailboxes self) (halted self) false,
         Ok tt))
  /\ ((value > 999)%Z ->
      load_input self value = (self, Raise AssertionError)).
Proof.
  unfold load_input, raised.
  destruct (Z.leb_spec value 999) as [Hle|Hgt]; simpl.
  - split; [split|split]; try lia; try reflexivity.
    intros [e He]. discriminate He.
  - split; [split|split]; try lia; try reflexivity.
    intros _. exists AssertionError. reflexivity.
Qed.

Lemma load_input_contract_witness :
  load_input idle (-5)
  = (mkSimulator 0 (-5) (mailboxes idle) false false, Ok tt)
  /\ load_input idle 1000 = (idle, Raise AssertionError).
Proof.
  destruct (load_input_contract idle (-5)) as (_ & Hok & _).
  destruct (load_input_contract idle 1000) as (_ & _ & Hbad).
  split; [apply Hok | apply Hbad]; lia.
Defined.

(** C7: when the machine is not halted and the fetched instruction decodes
    to opcode 4, or to an opcode from 900 to 999 other than 901 and 902,
    [step] adds one to [pc], returns [None] and changes nothing else. *)
Theorem step_unmapped_opcode (self : Simulator) (instruction : Z) :
  halted self = false ->
  _fetch self = Ok instruction ->
  (fst (_decode instruction) = 4
   \/ (900 <= fst (_decode instruction) <= 999
       /\ fst (_decode instruction) <> 901
       /\ fst (_decode instruction) <> 902))%Z ->
  step self = (set_pc self (pc self + 1), Ok None).
Proof.
  intros Hrun Hfetch Hop. unfold step. rewrite Hrun, Hfetch. simpl.
  destruct (_decode instruction) as [opcode operand]. simpl in Hop.
  apply execute_not_dispatched.
  unfold dispatched. apply bool_decide_eq_false.
  rewrite !elem_of_cons, elem_of_nil. lia.
Qed.

Lemma step_unmapped_opcode_witness :
  step (set_mailboxes idle [450; 0]%Z)
  = (set_pc (set_mailboxes idle [450; 0]%Z) 1, Ok None)
  /\ step (set_mailboxes idle [999; 0]%Z)
    = (set_pc (set_mailboxes idle [999; 0]%Z) 1, Ok None).
Proof.
  split.
  - apply (step_unmapped_opcode (set_mailboxes idle [450; 0]%Z) 450);
      [reflexivity | reflexivity | left; reflexivity].
  - apply (step_unmapped_opcode (set_mailboxes idle [999; 0]%Z) 999);
      [reflexivity | reflexivity | right; vm_compute; intuition discriminate].
Defined.

(** C10: on a running machine with 100 mailboxes and [pc] between 0 and
    99, the fetch reads the slot [pc]; the decoded operand is the
    instruction modulo 100, or 0 when the hundreds digit is 9, so it lies
    between 0 and 99 and names a slot of the mailboxes; and [step] raises
    nothing and keeps the 100 mailboxes. *)
Theorem step_accesses_in_range (self : Simulator) :
  well_formed self -> halted self = false -> (0 <= pc self <= 99)%Z ->
  exists instruction,
    index_of (mailboxes self) (pc self) = Ok (Z.to_nat (pc self))
    /\ mailboxes self !! Z.to_nat (pc self) = Some instruction
    /\ _fetch self = Ok instruction
    /\ snd (_decode instruction)
       = (if (instruction / 100 =? 9)%Z then 0 else instruction mod 100)%Z
    /\ (0 <= snd (_decode instruction) <= 99)%Z
    /\ index_of (mailboxes self) (snd (_decode instruction))
       = Ok (Z.to_nat (snd (_decode instruction)))
    /\ exists self' r, step self = (self', Ok r) /\ well_formed self'.
Proof.
  unfold well_formed. intros Hwf Hrun Hpc.
  destruct (lookup_lt_is_Some_2 (mailboxes self) (Z.to_nat (pc self)))
    as [instruction Hi]; [lia|].
  pose proof (decode_operand_range instruction) as Hop.
  exists instruction.
  assert (Hfetch : _fetch self = Ok instruction)
    by (apply getitem_in_range; [lia | exact Hi]).
  split; [apply index_of_in_range; lia|].
  split; [exact Hi|]. split; [exact Hfetch|].
  split; [unfold _decode; destruct (instruction / 100 =? 9)%Z; reflexivity|].
  split; [exact Hop|].
  split; [apply index_of_in_range; lia|].
  unfold step. rewrite Hrun, Hfetch. simpl.
  destruct (_decode instruction) as [opcode operand]. simpl in Hop.
  destruct (execute_in_range self opcode operand) as (self' & r & He & Hlen);
    [lia|].
  exists self', r. split; [exact He | congruence].
Qed.

Lemma step_accesses_in_range_witness :
  exists self' r,
    step (set_acc (set_mailboxes idle (replicate 100 399%Z)) 7)
    = (self', Ok r) /\ well_formed self'.
Proof.
  destruct (step_accesses_in_range
              (set_acc (set_mailboxes idle (replicate 100 399%Z)) 7))
    as (instruction & _ & _ & _ & _ & _ & _ & Hstep).
  - reflexivity.
  - reflexivity.
  - simpl. lia.
  - exact Hstep.
Defined.

(** * Properties of the assembler *)

(** ** Strings *)

Lemma lstrip_head (s : string) (c : ascii) (r : string) :
  lstrip s = String c r -> isspace c = false.
Proof.
  induction s as [|a s IH]; simpl; [discriminate|].
  destruct (isspace a) eqn:Ha; [exact IH|].
  intros [= <- _]. exact Ha.
Qed.

Lemma rstrip_head (s : string) (c : ascii) (r : string) :
  rstrip s = String c r -> exists r0, s = String c r0.
Proof.
  destruct s as [|a s]; simpl; [discriminate|].
  destruct (rstrip s); [destruct (isspace a)|];
    intros [= <- _]; eexists; reflexivity.
Qed.

Lemma strip_head (s : string) (c : ascii) (r : string) :
  strip s = String c r -> isspace c = false.
Proof.
  unfold strip. intros H. apply rstrip_head in H as [r0 H].
  exact (lstrip_head _ _ _ H).
Qed.

Lemma strip_keeps_head (c : ascii) (r : string) :
  isspace c = false -> exists r', strip (String c r) = String c r'.
Proof.
  intros Hc. unfold strip. simpl. rewrite Hc. simpl.
  destruct (rstrip r); rewrite ?Hc; eexists; reflexivity.
Qed.

Lemma split_whitespace_head (c : ascii) (r : string) :
  isspace c = false -> split_whitespace (String c r) <> [].
Proof.
  intros Hc. unfold split_whitespace. simpl.
  destruct (words_go r) as [w ws]. rewrite Hc. discriminate.
Qed.

Lemma prefix_empty (s : string) : String.prefix "" s = true.
Proof. destruct s; reflexivity. Qed.

(** The first field of [split] starts like the string when the string does
    not start with the separator. *)
Lemma split_first_field (sep : string) (c : ascii) (r : string) :
  String.prefix sep (String c r) = false ->
  exists w ws, split sep (String c r) = Ok (String c w :: ws).
Proof.
  intros Hp. unfold split.
  destruct (String.eqb_spec sep "") as [->|_].
  - rewrite prefix_empty in Hp. discriminate.
  - cbn [split_go]. rewrite Hp.
    destruct (split_go sep 0 r) as [w ws]. eexists _, _. reflexivity.
Qed.

(** ** Loops that collect results *)

Section ForEach.
Context {A B : Type} (f : A -> result B).

Lemma for_each_Forall2 (xs : list A) :
  forall ys, for_each f xs = Ok ys -> Forall2 (fun x y => f x = Ok y) xs ys.
Proof.
  induction xs as [|x xs IH]; simpl; intros ys H.
  - injection H as <-. constructor.
  - destruct (f x) as [y|e] eqn:Hx; simpl in H; [|discriminate].
    destruct (for_each f xs) as [ys'|e]; simpl in H; [|discriminate].
    injection H as <-. constructor; [exact Hx | apply IH; reflexivity].
Qed.

Lemma for_each_length (xs : list A) (ys : list B) :
  for_each f xs = Ok ys -> length ys = length xs.
Proof.
  intros H. symmetry. exact (Forall2_length _ _ _ (for_each_Forall2 _ _ H)).
Qed.

Lemma for_each_lookup (xs : list A) (ys : list B) (i : nat) (x : A) :
  for_each f xs = Ok ys -> xs !! i = Some x ->
  exists y, ys !! i = Some y /\ f x = Ok y.
Proof.
  intros H. exact (Forall2_lookup_l _ _ _ i x (for_each_Forall2 _ _ H)).
Qed.


Lemma for_each_raises (xs : list A) (x : A) :
  x ∈ xs -> raised (f x) -> raised (for_each f xs).
Proof.
  intros Hin [e He].
  destruct (for_each f xs) as [ys|e'] eqn:H; [|eexists; reflexivity].
  apply list_elem_of_lookup in Hin as [i Hi].
  destruct (for_each_lookup _ _ _ _ H Hi) as (y & _ & Hy). congruence.
Qed.
End ForEach.

(** ** Normalisation and tokenisation *)

(** [_normalise] never raises: [split] is reached only with a separator
    that the line does not start with, which the empty string would.  It
    keeps one line for each code line, and every line it keeps has a
    token. *)
Lemma normalise_loop_spec (self : Assembler) (raw : list string) :
  exists lines,
    normalise_loop self raw = Ok lines
    /\ length lines = length (List.filter (is_code_line self) raw)
    /\ Forall (fun line => split_whitespace line <> []) lines.
Proof.
  induction raw as [|r raw (lines & Hrun & Hlen & Htok)]; simpl.
  - exists []. repeat split. constructor.
  - unfold is_code_line.
    destruct (strip (replace_char "009" " " r)) as [|c line] eqn:Hline.
    + simpl. exists lines. auto.
    + cbn [String.eqb orb negb andb].
      destruct (startswith (String c line) (comment_delimeter self)) eqn:Hp.
      * simpl. exists lines. auto.
      * pose proof (strip_head _ _ _ Hline) as Hc.
        destruct (split_first_field _ _ _ Hp) as (w & ws & Hsplit).
        destruct (strip_keeps_head c w Hc) as [w' Hw].
        rewrite Hsplit. simpl. rewrite Hrun. simpl.
        unfold getitem, index_of. simpl.
        exists (strip (String c w) :: lines).
        split; [reflexivity|]. split; [simpl; f_equal; exact Hlen|].
        constructor; [|exact Htok].
        rewrite Hw. apply split_whitespace_head, Hc.
Qed.

Lemma normalise_spec (self : Assembler) (program : string) :
  exists lines,
    _normalise self program = Ok lines
    /\ length lines = count_code_lines self program
    /\ Forall (fun line => split_whitespace line <> []) lines.
Proof.
  unfold _normalise, count_code_lines, source_lines, split.
  change (String "010" "") with nl. change (String.eqb nl "") with false.
  destruct (split_go nl 0 program) as [w ws].
  exact (normalise_loop_spec self (w :: ws)).
Qed.

Lemma tokenise_line_None (line : string) :
  tokenise_line line = None -> split_whitespace line = [].
Proof.
  unfold tokenise_line.
  destruct (split_whitespace line) as [|t0 [|t1 [|t2 [|t3 ts]]]];
    try discriminate; [reflexivity|].
  destruct (is_mnemonic (upper t0)), (is_mnemonic (upper t1)); discriminate.
Qed.

Lemma tokenise_length (lines : list string) :
  Forall (fun line => split_whitespace line <> []) lines ->
  length (_tokenise lines) = length lines.
Proof.
  unfold _tokenise. induction 1 as [|line lines Hline _ IH]; simpl.
  - reflexivity.
  - destruct (tokenise_line line) eqn:Ht.
    + simpl. f_equal. exact IH.
    + apply tokenise_line_None in Ht. contradiction.
Qed.

(** ** The instruction table *)

Lemma is_mnemonic_spec (k : string) :
  is_mnemonic k = bool_decide (k ∈ mnemonics).
Proof.
  unfold is_mnemonic, instructions.
  match goal with |- context [list_to_map ?l] => set (table := l) end.
  destruct (list_to_map table !! k) as [v|] eqn:Hk.
  - apply elem_of_list_to_map_2 in Hk. unfold table in Hk.
    rewrite !elem_of_cons, elem_of_nil in Hk.
    symmetry. apply bool_decide_eq_true.
    repeat destruct Hk as [[= -> _]|Hk]; [..|contradiction];
      unfold mnemonics; set_solver.
  - apply (not_elem_of_list_to_map_2 (M := gmap string)) in Hk.
    symmetry. apply bool_decide_eq_false. exact Hk.
Qed.

(** ** Decimal literals *)

Lemma digit_not_space (c : ascii) : isdigit c = true -> isspace c = false.
Proof.
  unfold isdigit, isspace, between.
  destruct (Nat.leb_spec 48 (code c)); [|discriminate].
  intros _.
  destruct (Nat.leb_spec (code c) 13), (Nat.leb_spec 28 (code c)),
    (Nat.leb_spec (code c) 32); rewrite ?andb_false_r; simpl; try reflexivity;
    lia.
Qed.

Lemma rstrip_digits (s : string) : all_digits s = true -> rstrip s = s.
Proof.
  induction s as [|c s IH]; simpl; [reflexivity|].
  intros [Hc Hs]%andb_prop. rewrite (IH Hs), (digit_not_space c Hc).
  destruct s; reflexivity.
Qed.

Lemma literal_digits_plain (s : string) :
  all_digits s = true -> literal_digits true s = Some s.
Proof.
  induction s as [|c s IH]; simpl; [reflexivity|].
  intros [Hc Hs]%andb_prop. rewrite Hc, (IH Hs). reflexivity.
Qed.

Lemma digit_not_sign (c : ascii) :
  isdigit c = true -> Ascii.eqb c "+" = false /\ Ascii.eqb c "-" = false.
Proof.
  intros Hc. split; apply Ascii.eqb_neq; intros ->; discriminate Hc.
Qed.

Lemma string_of_uint_digits (d : Decimal.uint) :
  all_digits (NilEmpty.string_of_uint d) = true.
Proof. induction d; simpl; try exact IHd; reflexivity. Qed.

Lemma to_uint_nonnil (n : nat) : Nat.to_uint n <> Decimal.Nil.
Proof.
  rewrite <- (Unsigned.of_to n) at 1. rewrite Unsigned.to_of.
  apply DecimalFacts.unorm_nonnil.
Qed.

(** Reading back what [str] writes gives the number. *)
Lemma int_str (n : nat) : int (str n) = Ok (Z.of_nat n).
Proof.
  unfold int, str.
  pose proof (to_uint_nonnil n) as Hnil.
  pose proof (NilZero.usu _ Hnil) as Husu.
  assert (Hd : all_digits (NilZero.string_of_uint (Nat.to_uint n)) = true).
  { destruct (Nat.to_uint n); try reflexivity;
      exact (string_of_uint_digits _). }
  destruct (NilZero.string_of_uint (Nat.to_uint n)) as [|c r] eqn:Hs.
  { discriminate Husu. }
  pose proof Hd as [Hc Hr]%andb_prop.
  unfold strip. cbn [lstrip]. rewrite (digit_not_space c Hc).
  rewrite (rstrip_digits _ Hd).
  destruct (digit_not_sign c Hc) as [-> ->].
  unfold unsigned_literal. cbn [literal_digits]. rewrite Hc.
  rewrite (literal_digits_plain r Hr).
  change ((String c <$> Some r) ≫= ?k) with (k (String c r)).
  cbv beta. rewrite Husu. simpl. rewrite Unsigned.of_to. reflexivity.
Qed.

(** ** Labels *)

Lemma truthy_nonempty (L : string) : L <> "" -> truthy (Some L) = true.
Proof.
  intros HL. simpl. destruct (String.eqb_spec L ""); [contradiction|reflexivity].
Qed.

Lemma defines_tail (line : tokenised) (lines : list tokenised)
    (L : string) (k : nat) :
  defines (line :: lines) L (S k) <-> defines lines L k.
Proof. reflexivity. Qed.

(** A label that no line carries keeps the entry it had. *)
Lemma label_loop_undefined (L : string) (lines : list tokenised) :
  forall (labels : gmap string nat) (a : nat),
    (forall k, ~ defines lines L k) ->
    label_loop labels a lines !! L = labels !! L.
Proof.
  induction lines as [|[[label m] o] lines IH]; intros labels a Hno; simpl.
  - reflexivity.
  - rewrite IH by (intros k Hk; apply (Hno (S k)), defines_tail, Hk).
    destruct label as [l|]; [|reflexivity].
    destruct (truthy (Some l)); [|reflexivity].
    apply lookup_insert_ne. intros ->.
    apply (Hno 0). exists m, o. reflexivity.
Qed.

(** The table maps a label to the position of the last line carrying it. *)
Lemma label_loop_last (L : string) (lines : list tokenised) :
  forall (labels : gmap string nat) (a k : nat),
    L <> "" ->
    defines lines L k ->
    (forall k', k < k' -> ~ defines lines L k') ->
    label_loop labels a lines !! L = Some (a + k).
Proof.
  induction lines as [|[[label m] o] lines IH];
    intros labels a k HL Hdef Hlast.
  - destruct Hdef as (? & ? & Hdef). discriminate Hdef.
  - destruct k as [|k]; cbn [label_loop].
    + destruct Hdef as (m' & o' & [= -> _ _]).
      rewrite (truthy_nonempty L HL).
      rewrite label_loop_undefined.
      * rewrite lookup_insert_eq, Nat.add_0_r. reflexivity.
      * intros k Hk. apply (Hlast (S k)); [lia | apply defines_tail, Hk].
    + rewrite (IH _ (S a) k HL).
      * f_equal. lia.
      * apply defines_tail in Hdef. exact Hdef.
      * intros k' Hk' Hd. apply (Hlast (S k')); [lia | apply defines_tail, Hd].
Qed.

Lemma unlabel_line_reference (labels : gmap string nat)
    (label mnemonic : option string) (L : string) (k : nat) :
  is_reference mnemonic L = true ->
  labels !! L = Some k ->
  unlabel_line labels (label, mnemonic, Some L) = Ok (mnemonic, Some (str k)).
Proof.
  unfold is_reference, unlabel_line. intros -> ->. reflexivity.
Qed.



(** Without label operands the table is not consulted. *)
Lemma unlabel_numeric (labels : gmap string nat) (lines : list tokenised) :
  numeric_operands lines = true ->
  for_each (unlabel_line labels) lines
  = Ok ((fun line : tokenised => (line.1.2, line.2)) <$> lines).
Proof.
  induction lines as [|[[label m] o] lines IH]; simpl; [reflexivity|].
  intros [Ho Hrest]%andb_prop. rewrite (IH Hrest).
  destruct o as [o|]; [|reflexivity].
  rewrite Ho, andb_false_r. reflexivity.
Qed.

(** ** The assembler as a whole *)

(** C3: when every operand of the program is a numeric literal, no label
    is looked up, and the list that [assemble] returns has one entry for
    each source line that is neither empty nor comment-only after
    normalisation. *)
Theorem assemble_length (self : Assembler) (program : string)
    (lines : list string) (code : list Z) :
  _normalise self program = Ok lines ->
  numeric_operands (_tokenise lines) = true ->
  assemble self program = Ok code ->
  length code = count_code_lines self program
  /\ _unlabel_lines (_tokenise lines)
     = Ok ((fun line : tokenised => (line.1.2, line.2)) <$> _tokenise lines).
Proof.
  intros Hnorm Hnum Hrun.
  destruct (normalise_spec self program) as (lines' & Hnorm' & Hlen & Htok).
  rewrite Hnorm in Hnorm'. injection Hnorm' as <-.
  split; [|apply unlabel_numeric, Hnum].
  unfold assemble in Hrun. rewrite Hnorm in Hrun. simpl in Hrun.
  destruct (_unlabel_lines (_tokenise lines)) as [unlabelled|e] eqn:Hun;
    simpl in Hrun; [|discriminate].
  apply for_each_length in Hrun, Hun.
  rewrite Hrun, Hun, tokenise_length by exact Htok. exact Hlen.
Qed.

Lemma assemble_length_witness :
  length [901; 902; 209; 801; 0]%Z = count_code_lines lmc countdown_source.
Proof.
  apply (assemble_length lmc countdown_source
           ["INP"; "OUT"; "SUB 9"; "BRP 1"; "HLT"] [901; 902; 209; 801; 0]%Z);
    vm_compute; reflexivity.
Defined.

Lemma tokenise_lookup (lines : list string) :
  Forall (fun line => split_whitespace line <> []) lines ->
  forall (i : nat) (line : string),
    lines !! i = Some line ->
    exists t, tokenise_line line = Some t /\ _tokenise lines !! i = Some t.
Proof.
  unfold _tokenise.
  induction 1 as [|l lines Hl _ IH]; intros i line Hi; [discriminate|].
  destruct (tokenise_line l) as [t|] eqn:Ht;
    [|apply tokenise_line_None in Ht; contradiction].
  simpl. rewrite Ht. destruct i as [|i]; simpl in *.
  - injection Hi as <-. exists t. split; [exact Ht | reflexivity].
  - exact (IH i line Hi).
Qed.

Lemma tokenise_line_long (line : string) :
  3 < length (split_whitespace line) ->
  tokenise_line line = Some (None, None, None).
Proof.
  unfold tokenise_line.
  destruct (split_whitespace line) as [|t0 [|t1 [|t2 [|t3 ts]]]]; simpl;
    try lia. reflexivity.
Qed.

(** C8, as the code has it: a line with more than three tokens is not
    dropped.  Tokenisation keeps an entry for it, at the line's position,
    with no label, no mnemonic and no operand, and [assemble] raises on
    every program that has such a line. *)
Theorem assemble_long_line_raises (self : Assembler) (program : string)
    (lines : list string) (i : nat) (line : string) :
  _normalise self program = Ok lines ->
  lines !! i = Some line ->
  3 < length (split_whitespace line) ->
  _tokenise lines !! i = Some (None, None, None)
  /\ length (_tokenise lines) = length lines
  /\ raised (assemble self program).
Proof.
  intros Hnorm Hi Hlong.
  destruct (normalise_spec self program) as (lines' & Hnorm' & _ & Htok).
  rewrite Hnorm in Hnorm'. injection Hnorm' as <-.
  destruct (tokenise_lookup lines Htok i line Hi) as (t & Ht & Hti).
  rewrite (tokenise_line_long line Hlong) in Ht. injection Ht as <-.
  split; [exact Hti|]. split; [apply tokenise_length, Htok|].
  unfold assemble. rewrite Hnorm. simpl.
  destruct (_unlabel_lines (_tokenise lines)) as [out|e] eqn:Hun;
    [|exists e; reflexivity].
  destruct (for_each_lookup _ _ _ _ _ Hun Hti) as (y & Hy & Hline).
  simpl in Hline. injection Hline as <-. simpl.
  apply for_each_raises with (x := (None, None)).
  - apply list_elem_of_lookup. exists i. exact Hy.
  - exists KeyError. reflexivity.
Qed.

Lemma assemble_long_line_raises_witness :
  _tokenise ["ADD 1 2 3"; "HLT"] !! 0 = Some (None, None, None)
  /\ length (_tokenise ["ADD 1 2 3"; "HLT"]) = 2
  /\ raised (assemble lmc long_line_source).
Proof.
  apply (assemble_long_line_raises lmc long_line_source
           ["ADD 1 2 3"; "HLT"] 0 "ADD 1 2 3").
  - vm_compute. reflexivity.
  - reflexivity.
  - vm_compute. lia.
Defined.

(** C8 as stated fails on "ADD 1 2 3" followed by "HLT": the first line has
    four tokens, yet it keeps its entry among the tokenised lines and
    [assemble] raises KeyError instead of returning the code of "HLT". *)
Lemma long_line_not_dropped :
  _normalise lmc long_line_source = Ok ["ADD 1 2 3"; "HLT"]
  /\ split_whitespace "ADD 1 2 3" = ["ADD"; "1"; "2"; "3"]
  /\ _tokenise ["ADD 1 2 3"; "HLT"]
     = [(None, None, None); (None, Some "HLT", None)]
  /\ assemble lmc long_line_source = Raise KeyError
  /\ assemble lmc long_line_source <> Ok [0%Z].
Proof. vm_compute. repeat split. discriminate. Qed.

(** C9, as the code has it: a line of two tokens is a mnemonic (in upper
    case) with its operand when the first token in upper case is a
    mnemonic; else a label with its mnemonic (in upper case) when the
    second token in upper case is a mnemonic; else an entry with no
    label, no mnemonic and no operand. *)
Theorem tokenise_two_tokens (line t0 t1 : string) :
  split_whitespace line = [t0; t1] ->
  _tokenise [line]
  = [ if bool_decide (upper t0 ∈ mnemonics)
      then (None, Some (upper t0), Some t1)
      else if bool_decide (upper t1 ∈ mnemonics)
           then (Some t0, Some (upper t1), None)
           else (None, None, None) ].
Proof.
  intros Htok. unfold _tokenise. simpl. unfold tokenise_line.
  rewrite Htok, !is_mnemonic_spec.
  destruct (bool_decide (upper t0 ∈ mnemonics));
    [|destruct (bool_decide (upper t1 ∈ mnemonics))]; reflexivity.
Qed.

Lemma tokenise_two_tokens_witness :
  _tokenise ["loop hlt"] = [(Some "loop", Some "HLT", None)]
  /\ _tokenise ["sub one"] = [(None, Some "SUB", Some "one")].
Proof.
  split.
  - apply (tokenise_two_tokens "loop hlt" "loop" "hlt"). reflexivity.
  - apply (tokenise_two_tokens "sub one" "sub" "one"). reflexivity.
Defined.

(** C9 as stated fails on "foo bar": the first token is not a mnemonic,
    yet the line does not become label "foo" with a mnemonic, because the
    second token is not a mnemonic either. *)
Lemma two_tokens_no_mnemonic :
  split_whitespace "foo bar" = ["foo"; "bar"]
  /\ is_mnemonic (upper "foo") = false
  /\ _tokenise ["foo bar"] = [(None, None, None)]
  /\ forall mnemonic, _tokenise ["foo bar"] <> [(Some "foo", mnemonic, None)].
Proof. vm_compute. repeat split. discriminate. Qed.

(** C2: a reference to a label gets the position of the (last) line that
    carries the label, whichever side of that line the reference is on:
    the table is complete before the first operand is rewritten.  So two
    references, one before and one after the defining line, are rewritten
    to the same mailbox index [k], written in decimal. *)
Theorem label_references_agree (lines : list tokenised) (L : string)
    (k i j : nat) (li lj mi mj : option string) :
  defines lines L k ->
  (forall k', k < k' -> ~ defines lines L k') ->
  lines !! i = Some (li, mi, Some L) ->
  lines !! j = Some (lj, mj, Some L) ->
  is_reference mi L = true ->
  is_reference mj L = true ->
  label_loop ∅ 0 lines !! L = Some k
  /\ unlabel_line (label_loop ∅ 0 lines) (li, mi, Some L)
     = Ok (mi, Some (str k))
  /\ unlabel_line (label_loop ∅ 0 lines) (lj, mj, Some L)
     = Ok (mj, Some (str k))
  /\ int (str k) = Ok (Z.of_nat k)
  /\ forall out,
       _unlabel_lines lines = Ok out ->
       out !! i = Some (mi, Some (str k)) /\ out !! j = Some (mj, Some (str k)).
Proof.
  intros Hdef Hlast Hi Hj Hri Hrj.
  assert (HL : L <> "").
  { intros ->. discriminate Hri. }
  pose proof (label_loop_last L lines ∅ 0 k HL Hdef Hlast) as Htable.
  simpl in Htable.
  pose proof (unlabel_line_reference _ li mi L k Hri Htable) as Hui.
  pose proof (unlabel_line_reference _ lj mj L k Hrj Htable) as Huj.
  split; [exact Htable|]. split; [exact Hui|]. split; [exact Huj|].
  split; [apply int_str|].
  intros out Hout. unfold _unlabel_lines in Hout.
  destruct (for_each_lookup _ _ _ _ _ Hout Hi) as (yi & Hyi & Hfi).
  destruct (for_each_lookup _ _ _ _ _ Hout Hj) as (yj & Hyj & Hfj).
  rewrite Hui in Hfi. rewrite Huj in Hfj.
  injection Hfi as <-. injection Hfj as <-. split; assumption.
Qed.

Lemma label_references_agree_witness :
  _unlabel_lines jump_lines
  = Ok [ (Some "BRA", Some "2"); (Some "OUT", None); (Some "HLT", None);
         (Some "BRZ", Some "2") ]
  /\ label_loop ∅ 0 jump_lines !! "end" = Some 2.
Proof.
  destruct (label_references_agree jump_lines "end" 2 0 3
              None None (Some "BRA") (Some "BRZ")) as (Htable & _).
  - exists (Some "HLT"), None. reflexivity.
  - intros k' Hk' (m & o & Hd).
    destruct k' as [|[|[|[|k']]]]; try lia; discriminate Hd.
  - reflexivity.
  - reflexivity.
  - reflexivity.
  - reflexivity.
  - split; [vm_compute; reflexivity | exact Htable].
Defined.

(** * Further properties of the simulator *)

(** ** Indexing outside and below the list *)

Section ListIndexingEdges.
Context {A : Type}.
Implicit Types (l : list A) (i : Z).

Lemma getitem_out_of_range l i :
  (i < - Z.of_nat (length l) \/ Z.of_nat (length l) <= i)%Z ->
  getitem l i = Raise IndexError.
Proof.
  intros Hi. unfold getitem, index_of.
  destruct (Z.ltb_spec i 0); simpl.
  - destruct (Z.leb_spec 0 (i + Z.of_nat (length l))); [lia|]. reflexivity.
  - destruct (Z.leb_spec 0 i); [|lia].
    destruct (Z.ltb_spec i (Z.of_nat (length l))); [lia|]. reflexivity.
Qed.

Lemma getitem_negative l i :
  (- Z.of_nat (length l) <= i < 0)%Z ->
  getitem l i = getitem l (i + Z.of_nat (length l)).
Proof.
  intros Hi. unfold getitem.
  rewrite (index_of_in_range l (i + Z.of_nat (length l))) by lia.
  unfold index_of.
  destruct (Z.ltb_spec i 0); [|lia].
  destruct (Z.leb_spec 0 (i + Z.of_nat (length l))); [|lia].
  destruct (Z.ltb_spec (i + Z.of_nat (length l)) (Z.of_nat (length l)));
    [|lia].
  reflexivity.
Qed.

Lemma getitem_defined l i :
  (- Z.of_nat (length l) <= i < Z.of_nat (length l))%Z ->
  exists x, getitem l i = Ok x.
Proof.
  intros Hi. destruct (Z.lt_ge_cases i 0).
  - rewrite getitem_negative by lia. apply getitem_total. lia.
  - apply getitem_total. lia.
Qed.

Lemma setitem_length l i x l' :
  setitem l i x = Ok l' -> length l' = length l.
Proof.
  unfold setitem. destruct (index_of l i); simpl; [|discriminate].
  intros [= <-]. apply length_insert.
Qed.
End ListIndexingEdges.

(** ** Decoding by ranges of the instruction *)

(** The quotient and the remainder by 100, ready for [lia]. *)
Ltac divmod100 x :=
  let q := fresh "q" in
  let r := fresh "r" in
  let Hq := fresh "Hq" in
  let Hr := fresh "Hr" in
  pose proof (Z.div_mod x 100 ltac:(lia)) as Hq;
  pose proof (Z.mod_pos_bound x 100 ltac:(lia)) as Hr;
  set (q := (x / 100)%Z) in *; set (r := (x mod 100)%Z) in *.

Lemma decode_opcode (instruction : Z) :
  (_decode instruction).1
  = (if (instruction / 100 =? 9)%Z then instruction else instruction / 100)%Z.
Proof.
  unfold _decode. divmod100 instruction.
  destruct (Z.eqb_spec q 9); simpl; lia.
Qed.

Lemma decode_operand (instruction : Z) :
  (_decode instruction).2
  = (if (instruction / 100 =? 9)%Z then 0 else instruction mod 100)%Z.
Proof. unfold _decode. destruct (instruction / 100 =? 9)%Z; reflexivity. Qed.

(** An opcode [c] below 9 is decoded from the instructions 100c .. 100c+99
    and from no other. *)
Lemma decode_family (instruction c : Z) :
  (0 <= c <= 8)%Z ->
  (_decode instruction).1 = c <-> (100 * c <= instruction <= 100 * c + 99)%Z.
Proof.
  intros Hc. rewrite decode_opcode. divmod100 instruction.
  destruct (Z.eqb_spec q 9); lia.
Qed.

Lemma decode_in_family (instruction c : Z) :
  (0 <= c <= 8)%Z ->
  (100 * c <= instruction <= 100 * c + 99)%Z ->
  _decode instruction = (c, instruction - 100 * c)%Z.
Proof.
  intros Hc Hi. unfold _decode. divmod100 instruction.
  destruct (Z.eqb_spec q 9); [lia|]. f_equal; lia.
Qed.

(** The opcodes 901 and 902 are decoded from the instruction itself and
    also from the hundred instructions whose quotient by 100 they are. *)
Lemma decode_io (instruction c : Z) :
  (c = 901 \/ c = 902)%Z ->
  (_decode instruction).1 = c
  <-> (instruction = c \/ 100 * c <= instruction <= 100 * c + 99)%Z.
Proof.
  intros Hc. rewrite decode_opcode. divmod100 instruction.
  destruct (Z.eqb_spec q 9); lia.
Qed.

(** ** What one step can and cannot do *)

Lemma execute_length (self : Simulator) (opcode operand : Z) :
  length (mailboxes (_execute self opcode operand).1)
  = length (mailboxes self).
Proof.
  unfold _execute.
  repeat match goal with
  | |- context [if ?b then _ else _] => destruct b
  | |- context [match getitem ?l ?i with _ => _ end] => destruct (getitem l i)
  end; try reflexivity.
  simpl. destruct (setitem (mailboxes self) operand (acc self)) eqn:Hs;
    simpl; [|reflexivity].
  exact (setitem_length _ _ _ _ Hs).
Qed.

Lemma step_length (self : Simulator) :
  length (mailboxes (step self).1) = length (mailboxes self).
Proof.
  unfold step. destruct (negb (halted self)); [|reflexivity].
  destruct (_fetch self); [|reflexivity].
  destruct (_decode a). apply execute_length.
Qed.

Lemma load_loop_length (program : list Z) (indices : list nat) :
  forall mb, length (load_loop mb program indices).1 = length mb.
Proof.
  induction indices as [|i rest IH]; intros mb; simpl; [reflexivity|].
  destruct (getitem program (Z.of_nat i)); [|reflexivity].
  destruct (setitem mb (Z.of_nat i) a) eqn:Hs; [|reflexivity].
  rewrite IH. exact (setitem_length _ _ _ _ Hs).
Qed.

(** X1: no operation changes the number of mailboxes, whether it returns
    or raises; [reset] makes it 100. *)
Theorem mailbox_count_invariant (self : Simulator) :
  length (mailboxes (reset self)) = 100
  /\ (forall code,
       length (mailboxes (load_program self code).1)
       = length (mailboxes self))
  /\ (forall value,
       length (mailboxes (load_input self value).1)
       = length (mailboxes self))
  /\ length (mailboxes (step self).1) = length (mailboxes self).
Proof.
  split; [reflexivity|]. split; [|split].
  - intros code. unfold load_program.
    pose proof (load_loop_length code
      (seq 0 (Nat.min (length (mailboxes self)) (length code)))
      (mailboxes self)) as H.
    destruct (load_loop _ _ _) as [mb [[]|e]]; exact H.
  - intros value. unfold load_input.
    destruct (value <=? 999)%Z; reflexivity.
  - apply step_length.
Qed.

(** X2: on a machine with 100 mailboxes, [step] raises exactly when the
    machine is running and [pc] is below -100 or above 99; the exception
    is IndexError, from the fetch, and the machine is left as it was.  (A
    [pc] from -100 to -1 counts from the last mailbox.) *)
Theorem step_raises_iff (self : Simulator) :
  well_formed self ->
  (raised (step self).2
   <-> halted self = false /\ (pc self < -100 \/ 100 <= pc self)%Z)
  /\ (raised (step self).2 -> step self = (self, Raise IndexError)).
Proof.
  unfold well_formed. intros Hwf.
  assert (Hcases :
    (halted self = true /\ step self = (self, Ok None))
    \/ (halted self = false /\ (pc self < -100 \/ 100 <= pc self)%Z
        /\ step self = (self, Raise IndexError))
    \/ (halted self = false /\ (-100 <= pc self < 100)%Z
        /\ exists self' r, step self = (self', Ok r))).
  { unfold step. destruct (halted self); [left; auto|right]. simpl.
    destruct (Z.lt_ge_cases (pc self) (-100)) as [Hlo|Hlo];
      [|destruct (Z.lt_ge_cases (pc self) 100) as [Hhi|Hhi]].
    - left. unfold _fetch. rewrite getitem_out_of_range by lia. auto.
    - right. destruct (getitem_defined (mailboxes self) (pc self))
        as [instruction Hi]; [lia|].
      unfold _fetch. rewrite Hi.
      pose proof (decode_operand_range instruction) as Hop.
      destruct (_decode instruction) as [opcode operand]. simpl in Hop.
      destruct (execute_in_range self opcode operand)
        as (self' & r & He & _); [lia|].
      repeat split; [lia..|]. exists self', r. exact He.
    - left. unfold _fetch. rewrite getitem_out_of_range by lia. auto. }
  destruct Hcases as [[Hh Hs]|[(Hh & Hpc & Hs)|(Hh & Hpc & s' & r & Hs)]];
    rewrite Hs; simpl; (split; [split|]).
  - intros [e He]. discriminate He.
  - intros [Hf _]. congruence.
  - intros [e He]. discriminate He.
  - auto.
  - intros _. exists IndexError. reflexivity.
  - reflexivity.
  - intros [e He]. discriminate He.
  - intros [_ Hbad]. lia.
  - intros [e He]. discriminate He.
Qed.

Lemma step_raises_iff_witness :
  step (set_pc idle 100) = (set_pc idle 100, Raise IndexError).
Proof.
  destruct (step_raises_iff (set_pc idle 100) eq_refl) as [Hiff Hexn].
  apply Hexn, Hiff. split; [reflexivity | simpl; lia].
Defined.

(** Case analysis on the chain of tests of [_execute]. *)
Ltac execute_cases opcode :=
  unfold _execute;
  repeat match goal with
  | |- context [(opcode =? ?c)%Z] =>
      let H := fresh "Hop" in
      destruct (Z.eqb_spec opcode c) as [H|H]; [try subst opcode|]
  end.

(** X3: [step] returns a value exactly when the machine is running and
    the fetched instruction is 902 or lies in 90200 .. 90299 (whose
    quotient by 100 is 902 as well); the value is [acc] and only [pc]
    changes, by one. *)
Theorem step_output_iff (self self' : Simulator) (v : Z) :
  step self = (self', Ok (Some v))
  <-> halted self = false
      /\ (exists instruction,
            _fetch self = Ok instruction
            /\ (instruction = 902
                \/ 90200 <= instruction <= 90299)%Z)
      /\ v = acc self
      /\ self' = set_pc self (pc self + 1).
Proof.
  unfold step. destruct (halted self); simpl.
  { split; [discriminate | intros [H _]; discriminate H]. }
  destruct (_fetch self) as [instruction|e].
  2: { split; [discriminate | intros (_ & (? & H & _) & _); discriminate H]. }
  pose proof (decode_io instruction 902 ltac:(lia)) as Hio.
  destruct (_decode instruction) as [opcode operand]. simpl in Hio.
  split.
  - intros Hrun.
    assert (opcode = 902%Z /\ v = acc self
            /\ self' = set_pc self (pc self + 1)) as (Hop & Hv & Hs).
    { revert Hrun. execute_cases opcode;
        repeat match goal with
        | |- context [match ?r with Ok _ => _ | Raise _ => _ end] => destruct r
        | |- context [if ?b then _ else _] => destruct b
        end; intros [= <- <-] || intros [=]; auto. }
    split; [reflexivity|]. split; [|auto].
    exists instruction. split; [reflexivity | apply Hio, Hop].
  - intros (_ & (i & [= <-] & Hi) & -> & ->).
    apply Hio in Hi. subst opcode. reflexivity.
Qed.

Lemma step_output_iff_witness :
  step (set_acc (set_mailboxes idle [90250]%Z) 7)
  = (set_pc (set_acc (set_mailboxes idle [90250]%Z) 7) 1, Ok (Some 7%Z)).
Proof.
  apply (step_output_iff (set_acc (set_mailboxes idle [90250]%Z) 7)).
  split; [reflexivity|]. split; [|split; reflexivity].
  exists 90250%Z. split; [reflexivity | right; lia].
Defined.

(** X4: a step of a running machine with 100 mailboxes writes a mailbox
    only for an instruction 300 .. 399 (STA), and then only the mailbox
    named by its last two digits, which receives [acc]. *)
Theorem step_mailbox_frame (self : Simulator) (instruction : Z) :
  well_formed self ->
  halted self = false ->
  _fetch self = Ok instruction ->
  ((300 <= instruction <= 399)%Z ->
   mailboxes (step self).1
   = <[Z.to_nat (instruction - 300) := acc self]> (mailboxes self))
  /\ (~ (300 <= instruction <= 399)%Z ->
      mailboxes (step self).1 = mailboxes self).
Proof.
  unfold well_formed. intros Hwf Hrun Hfetch.
  unfold step. rewrite Hrun, Hfetch. simpl. split.
  - intros Hi. rewrite (decode_in_family instruction 3) by lia.
    unfold _execute. simpl.
    rewrite setitem_in_range by lia. simpl. repeat f_equal; lia.
  - intros Hi.
    pose proof (decode_family instruction 3 ltac:(lia)) as Hfam.
    destruct (_decode instruction) as [opcode operand]. simpl in Hfam.
    execute_cases opcode;
      repeat match goal with
      | |- context [match ?r with Ok _ => _ | Raise _ => _ end] => destruct r
      | |- context [if ?b then _ else _] => destruct b
      end; try reflexivity.
    exfalso. apply Hi. apply Hfam. reflexivity.
Qed.

Lemma step_mailbox_frame_witness :
  mailboxes (step (set_acc (set_mailboxes idle (replicate 100 399%Z)) 7)).1
  = <[99 := 7%Z]> (replicate 100 399%Z).
Proof.
  apply (step_mailbox_frame
           (set_acc (set_mailboxes idle (replicate 100 399%Z)) 7) 399);
    [reflexivity | reflexivity | reflexivity | lia].
Defined.

(** X5: after a step the machine is halted exactly when it was halted
    before or the fetched instruction lies in 0 .. 99: every such value
    halts, not only 0. *)
Theorem step_halts_iff (self : Simulator) :
  halted (step self).1 = true
  <-> halted self = true
      \/ exists instruction,
           _fetch self = Ok instruction /\ (0 <= instruction <= 99)%Z.
Proof.
  unfold step. destruct (halted self) eqn:Hh; simpl.
  { rewrite Hh. split; auto. }
  destruct (_fetch self) as [instruction|e]; simpl.
  2: { rewrite Hh. split; [discriminate|].
       intros [H|(? & H & _)]; discriminate H. }
  pose proof (decode_family instruction 0 ltac:(lia)) as Hfam.
  destruct (_decode instruction) as [opcode operand]. simpl in Hfam.
  assert (Hex : halted (_execute self opcode operand).1 = true
                <-> opcode = 0%Z).
  { execute_cases opcode;
      repeat match goal with
      | |- context [match ?r with Ok _ => _ | Raise _ => _ end] => destruct r
      | |- context [if ?b then _ else _] => destruct b
      end; simpl; rewrite ?Hh; split; congruence || reflexivity || lia. }
  rewrite Hex, Hfam. split.
  - intros Hi. right. exists instruction. split; [reflexivity | lia].
  - intros [H|(i & [= <-] & Hi)]; [discriminate H | lia].
Qed.

Lemma step_halts_iff_witness :
  halted (step (set_mailboxes idle [57]%Z)).1 = true.
Proof.
  apply (step_halts_iff (set_mailboxes idle [57]%Z)). right.
  exists 57%Z. split; [reflexivity | lia].
Defined.

(** X6: ADD, SUB and LDA on a running machine: an instruction 100 .. 199
    adds the mailbox named by its last two digits to [acc], 200 .. 299
    subtracts it, 500 .. 599 copies it; the result is not reduced to any
    range, [pc] advances by one and nothing else changes. *)
Theorem step_accumulator (self : Simulator) (instruction m : Z) :
  halted self = false ->
  _fetch self = Ok instruction ->
  mailboxes self !! Z.to_nat (instruction mod 100) = Some m ->
  ((100 <= instruction <= 199)%Z ->
   step self = (set_acc (set_pc self (pc self + 1)) (acc self + m), Ok None))
  /\ ((200 <= instruction <= 299)%Z ->
      step self
      = (set_acc (set_pc self (pc self + 1)) (acc self - m), Ok None))
  /\ ((500 <= instruction <= 599)%Z ->
      step self = (set_acc (set_pc self (pc self + 1)) m, Ok None)).
Proof.
  intros Hrun Hfetch Hm. unfold step. rewrite Hrun, Hfetch. simpl.
  assert (Hget : forall c, (100 * c <= instruction <= 100 * c + 99)%Z ->
            getitem (mailboxes self) (instruction - 100 * c) = Ok m).
  { intros c Hc. apply getitem_in_range; [lia|].
    replace (instruction - 100 * c)%Z with (instruction mod 100)%Z;
      [exact Hm|].
    symmetry. apply Z.mod_unique with c; lia. }
  repeat split; intros Hi.
  - rewrite (decode_in_family instruction 1) by lia.
    unfold _execute. simpl. rewrite (Hget 1%Z) by lia. reflexivity.
  - rewrite (decode_in_family instruction 2) by lia.
    unfold _execute. simpl. rewrite (Hget 2%Z) by lia. reflexivity.
  - rewrite (decode_in_family instruction 5) by lia.
    unfold _execute. simpl. rewrite (Hget 5%Z) by lia. reflexivity.
Qed.

Lemma step_accumulator_witness :
  step (set_acc (set_mailboxes idle [101; 999]%Z) 999)
  = (set_acc (set_pc (set_acc (set_mailboxes idle [101; 999]%Z) 999) 1) 1998,
     Ok None).
Proof.
  apply (step_accumulator
           (set_acc (set_mailboxes idle [101; 999]%Z) 999) 101 999);
    [reflexivity | reflexivity | reflexivity | lia].
Defined.

(** X7: the branches on a running machine: an instruction 600 .. 699
    sets [pc] to its last two digits; 700 .. 799 does so when [acc] is
    zero and 800 .. 899 when [acc] is not negative, and otherwise they
    advance [pc] by one; nothing else changes. *)
Theorem step_branch (self : Simulator) (instruction : Z) :
  halted self = false ->
  _fetch self = Ok instruction ->
  ((600 <= instruction <= 699)%Z ->
   step self = (set_pc self (instruction - 600), Ok None))
  /\ ((700 <= instruction <= 799)%Z ->
      step self
      = (set_pc self (if (acc self =? 0)%Z
                      then instruction - 700 else pc self + 1), Ok None))
  /\ ((800 <= instruction <= 899)%Z ->
      step self
      = (set_pc self (if (0 <=? acc self)%Z
                      then instruction - 800 else pc self + 1), Ok None)).
Proof.
  intros Hrun Hfetch. unfold step. rewrite Hrun, Hfetch. simpl.
  repeat split; intros Hi.
  - rewrite (decode_in_family instruction 6) by lia. reflexivity.
  - rewrite (decode_in_family instruction 7) by lia.
    unfold _execute. simpl. destruct (acc self =? 0)%Z; reflexivity.
  - rewrite (decode_in_family instruction 8) by lia.
    unfold _execute. simpl. rewrite Z.geb_leb.
    destruct (0 <=? acc self)%Z; reflexivity.
Qed.

Lemma step_branch_witness :
  step (set_acc (set_mailboxes idle [805]%Z) (-1))
  = (set_pc (set_acc (set_mailboxes idle [805]%Z) (-1)) 1, Ok None).
Proof.
  apply (step_branch (set_acc (set_mailboxes idle [805]%Z) (-1)) 805);
    [reflexivity | reflexivity | lia].
Defined.

(** X23: after a step the machine waits for input exactly when it did
    before, or it is running and the fetched instruction is 901 or lies
    in 90100 .. 90199 (whose quotient by 100 is 901 as well). *)
Theorem step_awaits_iff (self : Simulator) :
  awaiting_input (step self).1 = true
  <-> awaiting_input self = true
      \/ (halted self = false
          /\ exists instruction,
               _fetch self = Ok instruction
               /\ (instruction = 901
                   \/ 90100 <= instruction <= 90199)%Z).
Proof.
  unfold step. destruct (halted self) eqn:Hh; simpl.
  { split; [auto | intros [H|[H _]]; [exact H | discriminate H]]. }
  destruct (_fetch self) as [instruction|e]; simpl.
  2: { split; [auto | intros [H|(_ & ? & H & _)]; [exact H|discriminate H]]. }
  pose proof (decode_io instruction 901 ltac:(lia)) as Hio.
  destruct (_decode instruction) as [opcode operand]. simpl in Hio.
  assert (Hex : awaiting_input (_execute self opcode operand).1 = true
                <-> awaiting_input self = true \/ opcode = 901%Z).
  { execute_cases opcode;
      repeat match goal with
      | |- context [match ?r with Ok _ => _ | Raise _ => _ end] => destruct r
      | |- context [if ?b then _ else _] => destruct b
      end; simpl; split; auto; intros [H|H]; auto; congruence || lia. }
  rewrite Hex, Hio. split.
  - intros [H|H]; [left; exact H|]. right. split; [reflexivity|].
    exists instruction. split; [reflexivity | exact H].
  - intros [H|(_ & i & [= <-] & Hi)]; [left; exact H | right; exact Hi].
Qed.

Lemma step_awaits_iff_witness :
  awaiting_input (step (set_mailboxes idle [90150]%Z)).1 = true.
Proof.
  apply (step_awaits_iff (set_mailboxes idle [90150]%Z)). right.
  split; [reflexivity|]. exists 90150%Z. split; [reflexivity | lia].
Defined.

(** X8: [step] never looks at [awaiting_input]: whatever the flag is, the
    step returns or raises the same and leaves the same [pc], [acc],
    mailboxes and [halted]. *)
Theorem step_ignores_awaiting_input (self : Simulator) (flag : bool) :
  let waiting := step (set_awaiting_input self flag) in
  let plain := step self in
  waiting.2 = plain.2
  /\ pc waiting.1 = pc plain.1
  /\ acc waiting.1 = acc plain.1
  /\ mailboxes waiting.1 = mailboxes plain.1
  /\ halted waiting.1 = halted plain.1.
Proof.
  unfold step. simpl.
  change (_fetch (set_awaiting_input self flag)) with (_fetch self).
  destruct (halted self); simpl; [auto|].
  destruct (_fetch self) as [instruction|e]; simpl; [|auto].
  destruct (_decode instruction) as [opcode operand].
  execute_cases opcode; simpl;
    repeat match goal with
    | |- context [match ?r with Ok _ => _ | Raise _ => _ end] => destruct r
    | |- context [if ?b then _ else _] => destruct b
    end; simpl; auto.
Qed.

(** ** Loading and input *)

(** [load_program] never raises, whatever the number of mailboxes. *)
Lemma load_program_run (self : Simulator) (code : list Z) :
  let k := Nat.min (length (mailboxes self)) (length code) in
  load_program self code
  = (set_halted
       (set_mailboxes self (take k code ++ drop k (mailboxes self))) false,
     Ok tt).
Proof.
  unfold load_program.
  rewrite (load_loop_slice _ 0) by (simpl; lia).
  simpl. rewrite drop_0. reflexivity.
Qed.

(** X9: after [load_program], a machine with 100 mailboxes whose [pc] is
    inside the loaded part fetches the entry of the program at [pc]. *)
Theorem load_then_fetch (self : Simulator) (code : list Z) (x : Z) :
  well_formed self ->
  (0 <= pc self < 100)%Z ->
  code !! Z.to_nat (pc self) = Some x ->
  _fetch (load_program self code).1 = Ok x.
Proof.
  unfold well_formed. intros Hwf Hpc Hx.
  rewrite load_program_run. simpl. unfold _fetch. simpl.
  apply getitem_in_range; [lia|].
  pose proof (lookup_lt_Some _ _ _ Hx) as Hlt.
  rewrite lookup_app_l by (rewrite length_take; lia).
  rewrite lookup_take_lt by lia. exact Hx.
Qed.

Lemma load_then_fetch_witness :
  _fetch (load_program (set_pc idle 2) [901; 902; 0; 5]%Z).1 = Ok 0%Z.
Proof.
  apply (load_then_fetch (set_pc idle 2) [901; 902; 0; 5]%Z 0);
    [reflexivity | simpl; lia | reflexivity].
Defined.

(** X10: an input cycle.  On a running machine that fetches 901, [step]
    returns no value, raises the flag [awaiting_input] and clears [acc];
    [load_input] with a value of at most 999 then lowers the flag again
    and leaves the value in [acc].  Together they advance [pc] by one and
    change neither the mailboxes nor [halted]. *)
Theorem input_cycle (self : Simulator) (value : Z) :
  halted self = false ->
  _fetch self = Ok 901%Z ->
  (value <= 999)%Z ->
  step self
  = (mkSimulator (pc self + 1) 0 (mailboxes self) false true, Ok None)
  /\ load_input (step self).1 value
     = (mkSimulator (pc self + 1) value (mailboxes self) false false, Ok tt).
Proof.
  intros Hrun Hfetch Hv. unfold step, load_input.
  rewrite Hrun, Hfetch.
  change (_decode 901) with (901%Z, 0%Z). cbn -[Z.leb].
  destruct (Z.leb_spec value 999); [|lia].
  unfold set_pc, set_acc, set_awaiting_input. simpl. rewrite ?Hrun.
  split; reflexivity.
Qed.

Lemma input_cycle_witness :
  load_input (step (set_acc (set_mailboxes idle [901; 0]%Z) 55)).1 (-3)
  = (mkSimulator 1 (-3) [901; 0]%Z false false, Ok tt).
Proof.
  apply (input_cycle (set_acc (set_mailboxes idle [901; 0]%Z) 55) (-3));
    [reflexivity | reflexivity | lia].
Defined.

(** * Further properties of the assembler *)

(** ** Literals and the instruction table *)



Lemma is_DAT_true (m : option string) : is_DAT m = true <-> m = Some "DAT".
Proof. unfold is_DAT. apply bool_decide_eq_true. Qed.

Lemma is_DAT_false (m : string) : m <> "DAT" -> is_DAT (Some m) = false.
Proof.
  intros Hm. unfold is_DAT. apply bool_decide_eq_false. congruence.
Qed.

(** Each mnemonic but DAT has an opcode, and the opcode takes an operand
    exactly for the seven mnemonics of [operand_taking]. *)
Lemma mnemonic_table (m : string) :
  m ∈ mnemonics ->
  m = "DAT"
  \/ exists opcode,
       m <> "DAT" /\ instructions !! m = Some (Some opcode)
       /\ (takes_operand opcode = true <-> m ∈ operand_taking).
Proof.
  unfold mnemonics. rewrite !elem_of_cons, elem_of_nil.
  intros H.
  repeat destruct H as [->|H]; [..|contradiction];
    first [ left; reflexivity
          | right; eexists; split; [discriminate|];
            split; [vm_compute; reflexivity|];
            unfold takes_operand, operand_taking;
            rewrite bool_decide_eq_true; split; intros _; set_solver
          | right; eexists; split; [discriminate|];
            split; [vm_compute; reflexivity|];
            unfold takes_operand, operand_taking;
            rewrite bool_decide_eq_true, !elem_of_cons, !elem_of_nil;
            split; intros Hin; exfalso;
            repeat destruct Hin as [Hin|Hin]; discriminate || lia
                                              || contradiction ].
Qed.

Lemma opcode_is_mnemonic (m : string) (v : option Z) :
  instructions !! m = Some v -> m ∈ mnemonics.
Proof.
  intros Hm. pose proof (is_mnemonic_spec m) as Hs.
  unfold is_mnemonic in Hs. rewrite Hm in Hs.
  symmetry in Hs. apply bool_decide_eq_true in Hs. exact Hs.
Qed.

Lemma takes_operand_family (opcode : Z) :
  takes_operand opcode = true ->
  exists c, (opcode = 100 * c /\ 1 <= c <= 8)%Z.
Proof.
  unfold takes_operand. rewrite bool_decide_eq_true.
  rewrite !elem_of_cons, elem_of_nil. intros H.
  repeat destruct H as [->|H]; [..|contradiction];
    [exists 1%Z|exists 2%Z|exists 3%Z|exists 5%Z|exists 6%Z|exists 7%Z
    |exists 8%Z]; lia.
Qed.

Lemma generate_operand (m o : string) (opcode n : Z) :
  instructions !! m = Some (Some opcode) ->
  takes_operand opcode = true ->
  int o = Ok n ->
  generate_line (Some m, Some o) = Ok (opcode + n)%Z.
Proof.
  intros Hm Ht Ho. unfold generate_line.
  rewrite is_DAT_false by (intros ->; vm_compute in Hm; discriminate Hm).
  simpl. rewrite Hm, Ht, Ho. reflexivity.
Qed.

(** X11: encoding and decoding.  For a mnemonic that takes an operand and
    an operand that reads as [n >= 0], the generated instruction is the
    opcode plus [n]; [_decode] gives back the opcode digit and [n]
    exactly when [n] is at most 99: a larger operand spills into the
    opcode, and the assembler does not refuse it. *)
Theorem encode_decode (m o : string) (opcode n : Z) :
  instructions !! m = Some (Some opcode) ->
  takes_operand opcode = true ->
  int o = Ok n ->
  (0 <= n)%Z ->
  generate_line (Some m, Some o) = Ok (opcode + n)%Z
  /\ (_decode (opcode + n) = (opcode / 100, n)%Z <-> (n <= 99)%Z).
Proof.
  intros Hm Ht Ho Hn. split; [exact (generate_operand m o opcode n Hm Ht Ho)|].
  destruct (takes_operand_family opcode Ht) as (c & -> & Hc).
  replace (100 * c / 100)%Z with c by (apply Z.div_unique with 0%Z; lia).
  split.
  - intros Hd. pose proof (decode_operand_range (100 * c + n)) as Hr.
    rewrite Hd in Hr. simpl in Hr. lia.
  - intros Hle. rewrite (decode_in_family (100 * c + n) c) by lia.
    f_equal. lia.
Qed.

Lemma encode_decode_witness :
  generate_line (Some "BRZ", Some "42") = Ok 742%Z
  /\ _decode 742 = (7, 42)%Z.
Proof.
  destruct (encode_decode "BRZ" "42" 700 42) as [Hgen Hdec];
    [vm_compute; reflexivity | reflexivity | vm_compute; reflexivity | lia |].
  split; [exact Hgen | apply Hdec; lia].
Defined.

(** ** Where the exceptions of [assemble] come from *)

Lemma for_each_raise_inv {A B : Type} (f : A -> result B) (xs : list A)
    (e : exception) :
  for_each f xs = Raise e -> exists x, x ∈ xs /\ f x = Raise e.
Proof.
  induction xs as [|x xs IH]; simpl; [discriminate|].
  destruct (f x) as [y|e'] eqn:Hx; simpl.
  - destruct (for_each f xs) as [ys|e'']; simpl; [discriminate|].
    intros [= ->]. destruct (IH eq_refl) as (x' & Hin & Hx').
    exists x'. split; [apply elem_of_cons; right; exact Hin | exact Hx'].
  - intros [= ->]. exists x. split; [apply elem_of_cons; left; reflexivity|].
    exact Hx.
Qed.

Lemma unlabel_line_raise (labels : gmap string nat) (line : tokenised)
    (e : exception) :
  unlabel_line labels line = Raise e -> e = KeyError.
Proof.
  destruct line as [[l m] [o|]]; simpl; [|discriminate].
  destruct (_ && _); [|discriminate].
  destruct (labels !! o); [discriminate|]. congruence.
Qed.

Lemma int_raise (s : string) (e : exception) :
  int s = Raise e -> e = ValueError.
Proof.
  unfold int.
  match goal with |- context [match ?v with Some _ => _ | None => _ end] =>
    destruct v end; [discriminate | congruence].
Qed.

Lemma generate_line_raise (line : option string * option string)
    (e : exception) :
  generate_line line = Raise e ->
  e = KeyError \/ e = ValueError \/ e = TypeError.
Proof.
  destruct line as [m o]. unfold generate_line.
  destruct (is_DAT m).
  - destruct o as [o|]; [|discriminate].
    destruct (truthy (Some o)); [|discriminate].
    intros H%int_raise. auto.
  - destruct (m ≫= _) as [[opcode|]|]; [| discriminate | intros [= <-]; auto].
    destruct (takes_operand opcode); [|discriminate].
    destruct o as [o|]; [|intros [= <-]; auto].
    destruct (int o) eqn:Hi; simpl; [discriminate|].
    intros [= <-]. apply int_raise in Hi. auto.
Qed.

Lemma normalise_runs (self : Assembler) (program : string) :
  exists lines, _normalise self program = Ok lines.
Proof.
  destruct (normalise_spec self program) as (lines & H & _). eauto.
Qed.

(** [assemble] raises as soon as the third pass gives a line that the
    fourth cannot encode. *)
Lemma assemble_raises_at (self : Assembler) (program : string)
    (lines : list string) (i : nat) (line : tokenised) :
  _normalise self program = Ok lines ->
  _tokenise lines !! i = Some line ->
  (forall labels y, unlabel_line labels line = Ok y ->
                    raised (generate_line y)) ->
  raised (assemble self program).
Proof.
  intros Hnorm Hi Hbad. unfold assemble. rewrite Hnorm. simpl.
  destruct (_unlabel_lines (_tokenise lines)) as [out|e] eqn:Hun;
    [|exists e; reflexivity].
  destruct (for_each_lookup _ _ _ _ _ Hun Hi) as (y & Hy & Hline). simpl.
  apply for_each_raises with (x := y).
  - apply list_elem_of_lookup. exists i. exact Hy.
  - exact (Hbad _ _ Hline).
Qed.

(** X12: [assemble] raises no other exception than KeyError, ValueError
    and TypeError. *)
Theorem assemble_exceptions (self : Assembler) (program : string)
    (e : exception) :
  assemble self program = Raise e ->
  e = KeyError \/ e = ValueError \/ e = TypeError.
Proof.
  unfold assemble.
  destruct (normalise_runs self program) as [lines ->]. simpl.
  destruct (_unlabel_lines (_tokenise lines)) as [out|e'] eqn:Hun; simpl.
  - intros (y & _ & Hy)%for_each_raise_inv.
    exact (generate_line_raise y e Hy).
  - intros [= ->]. apply for_each_raise_inv in Hun as (x & _ & Hx).
    left. exact (unlabel_line_raise _ x e Hx).
Qed.

Lemma assemble_exceptions_witness :
  TypeError = KeyError \/ TypeError = ValueError \/ TypeError = TypeError.
Proof.
  apply (assemble_exceptions lmc "ADD" TypeError). vm_compute. reflexivity.
Defined.

(** X13: a reference to a label that no line carries makes [assemble]
    raise KeyError, whatever else the program contains. *)
Theorem undefined_label_raises (self : Assembler) (program : string)
    (lines : list string) (i : nat) (l m : option string) (L : string) :
  _normalise self program = Ok lines ->
  _tokenise lines !! i = Some (l, m, Some L) ->
  is_reference m L = true ->
  (forall k, ~ defines (_tokenise lines) L k) ->
  assemble self program = Raise KeyError.
Proof.
  intros Hnorm Hi Href Hno. unfold assemble. rewrite Hnorm. simpl.
  assert (Hline : unlabel_line (label_loop ∅ 0 (_tokenise lines))
                    (l, m, Some L) = Raise KeyError).
  { unfold unlabel_line. fold (is_reference m L). rewrite Href.
    rewrite label_loop_undefined by exact Hno.
    rewrite lookup_empty. reflexivity. }
  destruct (_unlabel_lines (_tokenise lines)) as [out|e] eqn:Hun; simpl.
  - destruct (for_each_lookup _ _ _ _ _ Hun Hi) as (y & _ & Hy).
    rewrite Hline in Hy. discriminate Hy.
  - apply for_each_raise_inv in Hun as (x & _ & Hx).
    rewrite (unlabel_line_raise _ x e Hx). reflexivity.
Qed.

Lemma undefined_label_raises_witness :
  assemble lmc ("start LDA 5" +:+ nl +:+ "BRA stop" +:+ nl +:+ "HLT")
  = Raise KeyError.
Proof.
  apply (undefined_label_raises lmc _ ["start LDA 5"; "BRA stop"; "HLT"] 1
           None (Some "BRA") "stop").
  - vm_compute. reflexivity.
  - vm_compute. reflexivity.
  - vm_compute. reflexivity.
  - intros k (m & o & Hd). vm_compute in Hd.
    destruct k as [|[|[|k]]]; discriminate Hd.
Defined.

(** X14: a line whose mnemonic is not in the table (or that has none)
    makes [assemble] raise. *)
Theorem unknown_mnemonic_raises (self : Assembler) (program : string)
    (lines : list string) (i : nat) (l m o : option string) :
  _normalise self program = Ok lines ->
  _tokenise lines !! i = Some (l, m, o) ->
  (forall k, m = Some k -> k ∉ mnemonics) ->
  raised (assemble self program).
Proof.
  intros Hnorm Hi Hm.
  apply (assemble_raises_at self program lines i (l, m, o) Hnorm Hi).
  intros labels [m' o'] Hy.
  assert (m' = m) as ->.
  { revert Hy. unfold unlabel_line. destruct o as [s|]; [|congruence].
    destruct (_ && _); [|congruence]. destruct (labels !! s); congruence. }
  exists KeyError. unfold generate_line.
  destruct m as [k|].
  - specialize (Hm k eq_refl).
    rewrite is_DAT_false by (intros ->; apply Hm; set_solver).
    simpl. destruct (instructions !! k) as [v|] eqn:Hk; [|reflexivity].
    exfalso. exact (Hm (opcode_is_mnemonic k v Hk)).
  - reflexivity.
Qed.

Lemma unknown_mnemonic_raises_witness :
  raised (assemble lmc ("INP" +:+ nl +:+ "x MUL 3" +:+ nl +:+ "HLT")).
Proof.
  apply (unknown_mnemonic_raises lmc _ ["INP"; "x MUL 3"; "HLT"] 1
           (Some "x") (Some "MUL") (Some "3")).
  - vm_compute. reflexivity.
  - vm_compute. reflexivity.
  - intros k [= <-]. unfold mnemonics.
    rewrite !elem_of_cons, elem_of_nil. intros H.
    repeat destruct H as [H|H]; discriminate || contradiction.
Defined.

(** X15: one of the seven mnemonics that take an operand, written without
    an operand, makes [assemble] raise. *)
Theorem missing_operand_raises (self : Assembler) (program : string)
    (lines : list string) (i : nat) (l : option string) (m : string) :
  _normalise self program = Ok lines ->
  _tokenise lines !! i = Some (l, Some m, None) ->
  m ∈ operand_taking ->
  raised (assemble self program).
Proof.
  intros Hnorm Hi Hm.
  apply (assemble_raises_at self program lines i _ Hnorm Hi).
  intros labels y [= <-].
  assert (Hin : m ∈ mnemonics).
  { unfold operand_taking in Hm. unfold mnemonics.
    rewrite !elem_of_cons, elem_of_nil in Hm. rewrite !elem_of_cons. tauto. }
  destruct (mnemonic_table m Hin) as [->|(opcode & Hd & Hop & Ht)].
  - exfalso. revert Hm. unfold operand_taking.
    rewrite !elem_of_cons, elem_of_nil. intros H.
    repeat destruct H as [H|H]; discriminate || contradiction.
  - exists TypeError. unfold generate_line.
    rewrite is_DAT_false by exact Hd. simpl. rewrite Hop.
    apply Ht in Hm. rewrite Hm. reflexivity.
Qed.

Lemma missing_operand_raises_witness :
  raised (assemble lmc ("INP" +:+ nl +:+ "add" +:+ nl +:+ "HLT")).
Proof.
  apply (missing_operand_raises lmc _ ["INP"; "add"; "HLT"] 1 None "ADD").
  - vm_compute. reflexivity.
  - vm_compute. reflexivity.
  - unfold operand_taking. set_solver.
Defined.

(** ** The label table and the addresses in the code *)

Lemma label_loop_inv (L : string) (lines : list tokenised) :
  forall (labels : gmap string nat) (a v : nat),
    label_loop labels a lines !! L = Some v ->
    (labels !! L = Some v /\ (L = "" \/ forall k, ~ defines lines L k))
    \/ (L <> "" /\ a <= v /\ defines lines L (v - a)
        /\ forall k', v - a < k' -> ~ defines lines L k').
Proof.
  induction lines as [|[[label m] o] lines IH]; intros labels a v; simpl.
  - intros H. left. split; [exact H|]. right.
    intros k (? & ? & Hd). discriminate Hd.
  - intros H. apply IH in H as [[Hv Hno]|(HL & Hle & Hdef & Hlast)].
    + destruct (decide (label = Some L /\ L <> "")) as [[-> HL]|Hother].
      * rewrite (truthy_nonempty L HL), lookup_insert_eq in Hv.
        injection Hv as <-. right.
        destruct Hno as [->|Hno]; [contradiction|].
        split; [exact HL|]. split; [lia|]. rewrite Nat.sub_diag.
        split; [exists m, o; reflexivity|].
        intros [|k'] Hk'; [lia|]. rewrite defines_tail. apply Hno.
      * left. split.
        -- destruct label as [l|]; [|exact Hv].
           destruct (truthy (Some l)) eqn:Ht; [|exact Hv].
           rewrite lookup_insert_ne in Hv; [exact Hv|].
           intros ->. apply Hother. split; [reflexivity|].
           intros ->. discriminate Ht.
        -- destruct (decide (L = "")) as [->|HL]; [left; reflexivity|].
           right. destruct Hno as [->|Hno]; [contradiction|].
           intros [|k]; [|rewrite defines_tail; apply Hno].
           intros (? & ? & [= -> _ _]). apply Hother. auto.
    + right. split; [exact HL|]. split; [lia|].
      replace (v - a) with (S (v - S a)) by lia.
      split; [apply defines_tail, Hdef|].
      intros [|k'] Hk'; [lia|]. rewrite defines_tail. apply Hlast. lia.
Qed.

(** X16: the label table maps a label to [k] exactly when the label is
    not empty, line [k] carries it and no later line does; so every
    address in the table is the position of a line of the program. *)
Theorem label_table_iff (lines : list tokenised) (L : string) (k : nat) :
  (label_loop ∅ 0 lines !! L = Some k
   <-> L <> "" /\ defines lines L k
       /\ forall k', k < k' -> ~ defines lines L k')
  /\ (label_loop ∅ 0 lines !! L = Some k -> k < length lines).
Proof.
  assert (Hfwd : label_loop ∅ 0 lines !! L = Some k ->
                 L <> "" /\ defines lines L k
                 /\ forall k', k < k' -> ~ defines lines L k').
  { intros H. apply label_loop_inv in H as [[H _]|(HL & _ & Hd & Hlast)].
    - rewrite lookup_empty in H. discriminate H.
    - rewrite Nat.sub_0_r in Hd, Hlast. auto. }
  split; [split; [exact Hfwd|]|].
  - intros (HL & Hd & Hlast).
    exact (label_loop_last L lines ∅ 0 k HL Hd Hlast).
  - intros H. apply Hfwd in H as (_ & (m & o & Hd) & _).
    exact (lookup_lt_Some _ _ _ Hd).
Qed.

Lemma label_table_iff_witness :
  label_loop ∅ 0 jump_lines !! "end" = Some 2 /\ 2 < length jump_lines.
Proof.
  destruct (label_table_iff jump_lines "end" 2) as [Hiff Hlt].
  assert (H : label_loop ∅ 0 jump_lines !! "end" = Some 2).
  { apply Hiff. split; [discriminate|]. split.
    - exists (Some "HLT"), None. reflexivity.
    - intros k' Hk' (m & o & Hd).
      destruct k' as [|[|[|[|k']]]]; try lia; discriminate Hd. }
  split; [exact H | exact (Hlt H)].
Defined.

(** X17: through the last two passes a line keeps its position, and a
    reference to a label becomes an address: the instruction generated
    for a line [m L], where [m] takes an operand and [L] is the label of
    line [k] (and of no later line), is the opcode of [m] plus [k], at
    the position of the line; line [k] has its own entry at position [k];
    and when [k] is at most 99 the instruction decodes to the opcode
    digit and [k]. *)
Theorem reference_encoding (lines : list tokenised)
    (out : list (option string * option string)) (code : list Z)
    (i k : nat) (l : option string) (m L : string) (opcode : Z) :
  _unlabel_lines lines = Ok out ->
  _generate_machine_code out = Ok code ->
  lines !! i = Some (l, Some m, Some L) ->
  is_reference (Some m) L = true ->
  instructions !! m = Some (Some opcode) ->
  takes_operand opcode = true ->
  defines lines L k ->
  (forall k', k < k' -> ~ defines lines L k') ->
  code !! i = Some (opcode + Z.of_nat k)%Z
  /\ is_Some (code !! k)
  /\ (k <= 99 ->
      _decode (opcode + Z.of_nat k) = (opcode / 100, Z.of_nat k)%Z).
Proof.
  intros Hun Hgen Hi Href Hm Ht Hdef Hlast.
  assert (HL : L <> "") by (intros ->; discriminate Href).
  pose proof (label_loop_last L lines ∅ 0 k HL Hdef Hlast) as Htable.
  simpl in Htable.
  pose proof (unlabel_line_reference _ l (Some m) L k Href Htable) as Hline.
  destruct (for_each_lookup _ _ _ _ _ Hun Hi) as (y & Hy & Hfy).
  rewrite Hline in Hfy. injection Hfy as <-.
  destruct (for_each_lookup _ _ _ _ _ Hgen Hy) as (z & Hz & Hgz).
  rewrite (generate_operand m (str k) opcode (Z.of_nat k) Hm Ht (int_str k))
    in Hgz.
  injection Hgz as <-.
  split; [exact Hz|]. split.
  - apply lookup_lt_is_Some.
    rewrite (for_each_length _ _ _ Hgen), (for_each_length _ _ _ Hun).
    destruct Hdef as (? & ? & Hd). exact (lookup_lt_Some _ _ _ Hd).
  - intros Hk. destruct (takes_operand_family opcode Ht) as (c & -> & Hc).
    replace (100 * c / 100)%Z with c by (apply Z.div_unique with 0%Z; lia).
    rewrite (decode_in_family _ c) by lia. f_equal. lia.
Qed.

Lemma reference_encoding_witness :
  [600 + 2; 902; 0; 700 + 2]%Z !! 3 = Some (700 + Z.of_nat 2)%Z.
Proof.
  apply (reference_encoding jump_lines
           [ (Some "BRA", Some "2"); (Some "OUT", None); (Some "HLT", None);
             (Some "BRZ", Some "2") ]
           [600 + 2; 902; 0; 700 + 2]%Z 3 2 None "BRZ" "end" 700).
  - vm_compute. reflexivity.
  - vm_compute. reflexivity.
  - reflexivity.
  - reflexivity.
  - vm_compute. reflexivity.
  - reflexivity.
  - exists (Some "HLT"), None. reflexivity.
  - intros k' Hk' (m & o & Hd).
    destruct k' as [|[|[|[|k']]]]; try lia; discriminate Hd.
Defined.

(** X18: a DAT line is never resolved against the label table.  When the
    last two passes return, the entry at the position of a DAT line is 0
    if the line has no operand and otherwise the operand read as an
    integer literal, even when the operand is also the label of a line. *)
Theorem dat_is_literal (lines : list tokenised)
    (out : list (option string * option string)) (code : list Z)
    (i : nat) (l o : option string) :
  _unlabel_lines lines = Ok out ->
  _generate_machine_code out = Ok code ->
  lines !! i = Some (l, Some "DAT", o) ->
  out !! i = Some (Some "DAT", o)
  /\ exists z, code !! i = Some z
       /\ match o with
          | Some s => if String.eqb s "" then z = 0%Z else int s = Ok z
          | None => z = 0%Z
          end.
Proof.
  intros Hun Hgen Hi.
  destruct (for_each_lookup _ _ _ _ _ Hun Hi) as (y & Hy & Hfy).
  assert (y = (Some "DAT", o)) as ->.
  { revert Hfy. unfold unlabel_line. destruct o as [s|]; [|congruence].
    change (is_DAT (Some "DAT")) with true.
    rewrite andb_false_r. congruence. }
  split; [exact Hy|].
  destruct (for_each_lookup _ _ _ _ _ Hgen Hy) as (z & Hz & Hgz).
  exists z. split; [exact Hz|].
  revert Hgz. unfold generate_line.
  change (is_DAT (Some "DAT")) with true. cbv iota.
  destruct o as [s|]; [|congruence]. simpl.
  destruct (String.eqb s ""); simpl; congruence.
Qed.

Lemma dat_is_literal_witness :
  exists z, [5; 105]%Z !! 0 = Some z /\ int "5" = Ok z.
Proof.
  destruct (dat_is_literal
              [(Some "one", Some "DAT", Some "5"); (None, Some "ADD", Some "5")]
              [(Some "DAT", Some "5"); (Some "ADD", Some "5")]
              [5; 105]%Z 0 (Some "one") (Some "5")) as (_ & z & Hz & Hint).
  - vm_compute. reflexivity.
  - vm_compute. reflexivity.
  - reflexivity.
  - exists z. split; [exact Hz | exact Hint].
Defined.

(** ** Programs that assemble *)







(** ** What normalisation leaves *)

Lemma prefix_nil_inv (sep : string) : String.prefix sep "" = true -> sep = "".
Proof. destruct sep; [reflexivity | discriminate]. Qed.

Lemma prefix_app (p : string) :
  forall a b, String.prefix p a = true -> String.prefix p (a +:+ b) = true.
Proof.
  induction p as [|c p IH]; intros a b; [intros _; apply prefix_empty|].
  destruct a as [|d a]; simpl; [discriminate|].
  destruct (ascii_dec c d); [apply IH | discriminate].
Qed.

Lemma occurs_app_l (sep a b : string) :
  occurs sep a = true -> occurs sep (a +:+ b) = true.
Proof.
  induction a as [|c a IH].
  - simpl. rewrite orb_false_r. intros ->%prefix_nil_inv.
    destruct b; reflexivity.
  - change (occurs sep (String c a))
      with (String.prefix sep (String c a) || occurs sep a).
    change (occurs sep (String c a +:+ b))
      with (String.prefix sep (String c a +:+ b) || occurs sep (a +:+ b)).
    intros [Hp|Ho]%orb_prop.
    + rewrite (prefix_app sep (String c a) b Hp). reflexivity.
    + rewrite (IH Ho). apply orb_true_r.
Qed.

Lemma occurs_app_r (sep a b : string) :
  occurs sep b = true -> occurs sep (a +:+ b) = true.
Proof.
  intros Hb. induction a as [|c a IH]; [exact Hb|].
  change (occurs sep (String c a +:+ b))
    with (String.prefix sep (String c a +:+ b) || occurs sep (a +:+ b)).
  rewrite IH. apply orb_true_r.
Qed.

Lemma lstrip_suffix (s : string) : exists t, s = t +:+ lstrip s.
Proof.
  induction s as [|c s [t IH]]; simpl; [exists ""; reflexivity|].
  destruct (isspace c); [|exists ""; reflexivity].
  exists (String c t). change (String c s = String c (t +:+ lstrip s)).
  f_equal. exact IH.
Qed.

Lemma rstrip_prefix (s : string) : exists t, s = rstrip s +:+ t.
Proof.
  induction s as [|c s [t IH]]; simpl; [exists ""; reflexivity|].
  destruct (rstrip s) as [|a r] eqn:Hr.
  - destruct (isspace c); [exists (String c s) | exists s]; reflexivity.
  - exists t. change (String c s = String c (String a r +:+ t)).
    f_equal. exact IH.
Qed.

Lemma occurs_strip (sep s : string) :
  occurs sep (strip s) = true -> occurs sep s = true.
Proof.
  unfold strip. intros H.
  destruct (lstrip_suffix s) as [t Ht]. rewrite Ht. apply occurs_app_r.
  destruct (rstrip_prefix (lstrip s)) as [u Hu]. rewrite Hu.
  apply occurs_app_l. exact H.
Qed.

Lemma rstrip_idem (s : string) : rstrip (rstrip s) = rstrip s.
Proof.
  induction s as [|c s IH]; simpl; [reflexivity|].
  destruct (rstrip s) as [|a r] eqn:Hr.
  - destruct (isspace c) eqn:Hc; simpl; rewrite ?Hc; reflexivity.
  - cbn [rstrip] in *. rewrite IH. reflexivity.
Qed.

Lemma strip_idem (s : string) : strip (strip s) = strip s.
Proof.
  destruct (strip s) as [|c r] eqn:Hs; [reflexivity|].
  pose proof (strip_head _ _ _ Hs) as Hc.
  unfold strip at 1. cbn [lstrip]. rewrite Hc.
  rewrite <- Hs. unfold strip. apply rstrip_idem.
Qed.

Lemma first_field_prefix (sep s : string) :
  exists t, s = (split_go sep 0 s).1 +:+ t.
Proof.
  induction s as [|c s [t IH]]; [exists ""; reflexivity|].
  cbn [split_go]. destruct (String.prefix sep (String c s)).
  - destruct (split_go sep (String.length sep - 1) s).
    exists (String c s). reflexivity.
  - destruct (split_go sep 0 s) as [w ws]. exists t.
    change (String c s = String c (w +:+ t)). f_equal. exact IH.
Qed.

Lemma first_field_clean (sep s : string) :
  sep <> "" -> occurs sep (split_go sep 0 s).1 = false.
Proof.
  intros Hsep.
  assert (Hnil : occurs sep "" = false).
  { destruct sep; [contradiction | reflexivity]. }
  induction s as [|c s IH]; [exact Hnil|].
  cbn [split_go]. destruct (String.prefix sep (String c s)) eqn:Hp.
  - destruct (split_go sep (String.length sep - 1) s). exact Hnil.
  - destruct (first_field_prefix sep s) as [t Ht].
    destruct (split_go sep 0 s) as [w ws]. cbn [fst] in *.
    change (occurs sep (String c w))
      with (String.prefix sep (String c w) || occurs sep w).
    rewrite IH, orb_false_r.
    destruct (String.prefix sep (String c w)) eqn:Hw; [|reflexivity].
    apply (prefix_app _ _ t) in Hw.
    change (String c w +:+ t) with (String c (w +:+ t)) in Hw.
    rewrite <- Ht in Hw. congruence.
Qed.

Lemma replace_no_tab (s : string) :
  occurs tab (replace_char "009" " " s) = false.
Proof.
  induction s as [|c s IH]; [reflexivity|].
  cbn [replace_char occurs]. rewrite IH, orb_false_r.
  unfold tab. cbn [String.prefix].
  destruct (Ascii.eqb_spec c "009") as [->|Hc].
  - destruct (ascii_dec "009" " "); [discriminate | reflexivity].
  - destruct (ascii_dec "009" c); [congruence | reflexivity].
Qed.

Lemma split_fields (sep s : string) (fields : list string) :
  split sep s = Ok fields ->
  sep <> "" /\ exists ws, fields = (split_go sep 0 s).1 :: ws.
Proof.
  unfold split. destruct (String.eqb_spec sep ""); [discriminate|].
  destruct (split_go sep 0 s) as [w ws]. intros [= <-]. eauto.
Qed.

Lemma normalise_loop_clean (self : Assembler) (raw : list string) :
  forall lines,
    normalise_loop self raw = Ok lines -> Forall (clean_line self) lines.
Proof.
  induction raw as [|r raw IH]; simpl; intros lines.
  - intros [= <-]. constructor.
  - destruct (strip (replace_char "009" " " r)) as [|c line] eqn:Hline;
      [exact (IH lines)|].
    cbn [String.eqb orb].
    destruct (startswith (String c line) (comment_delimeter self)) eqn:Hp;
      [exact (IH lines)|].
    pose proof (strip_head _ _ _ Hline) as Hc.
    destruct (split_first_field _ _ _ Hp) as (w & ws & Hsplit).
    rewrite Hsplit. simpl.
    destruct (normalise_loop self raw) as [rest|e]; simpl; [|discriminate].
    unfold getitem, index_of. simpl. intros [= <-].
    constructor; [|apply IH; reflexivity].
    apply split_fields in Hsplit as (Hsep & ws' & Heq).
    pose proof (f_equal (hd "") Heq) as Hw. cbn [hd] in Hw. clear Heq.
    destruct (strip_keeps_head c w Hc) as [w' Hw'].
    repeat split.
    + rewrite Hw'. discriminate.
    + apply strip_idem.
    + destruct (occurs _ (strip _)) eqn:Ho; [|reflexivity].
      apply occurs_strip in Ho. rewrite Hw in Ho.
      rewrite first_field_clean in Ho by exact Hsep. discriminate Ho.
    + destruct (occurs tab (strip _)) eqn:Ho; [|reflexivity].
      apply occurs_strip in Ho.
      destruct (first_field_prefix (comment_delimeter self) (String c line))
        as [t Ht].
      rewrite <- Hw in Ht. apply (occurs_app_l _ _ t) in Ho.
      rewrite <- Ht, <- Hline in Ho. apply occurs_strip in Ho.
      rewrite replace_no_tab in Ho. discriminate Ho.
Qed.

(** X20: every line that [_normalise] returns is not empty, has no white
    space at either end, contains no tab and contains no occurrence of
    the comment delimiter. *)
Theorem normalise_clean (self : Assembler) (program : string)
    (lines : list string) :
  _normalise self program = Ok lines -> Forall (clean_line self) lines.
Proof.
  unfold _normalise. destruct (split _ program) as [raw|e]; simpl;
    [|discriminate].
  apply normalise_loop_clean.
Qed.

Lemma normalise_clean_witness :
  Forall (clean_line lmc) ["INP"; "OUT"; "SUB 9"; "BRP 1"; "HLT"].
Proof.
  apply (normalise_clean lmc countdown_source). vm_compute. reflexivity.
Defined.

(** * Properties of the command line loop *)

Lemma read_input_spec (sim sim' : Simulator) (stdin stdin' : list string)
    (stop : option ending) :
  read_input sim stdin = (sim', stdin', stop) ->
  (stop = None ->
   awaiting_input sim' = false /\ halted sim' = halted sim
   /\ exists line, stdin = line :: stdin')
  /\ (stop <> Some EndOfInput -> exists line, stdin = line :: stdin')
  /\ (stop = Some EndOfInput -> stdin = [] /\ stdin' = [])
  /\ stop <> Some Finished /\ stop <> Some OutOfFuel.
Proof.
  unfold read_input. destruct stdin as [|line rest].
  - intros [= <- <- <-]. repeat split; congruence.
  - destruct (int line) as [x|e].
    + unfold load_input. destruct (x <=? 999)%Z; intros [= <- <- <-];
        repeat split; try congruence; eauto.
    + intros [= <- <- <-]. repeat split; try congruence; eauto.
Qed.

Lemma banner_not_shown (output : option Z) :
  (Banner ∉ (match output with Some v => [Value v] | None => [] end)
             ++ [Prompt])
  /\ (Banner ∉ (match output with Some v => [Value v] | None => [] end)).
Proof.
  destruct output; split; rewrite ?elem_of_app, ?elem_of_cons, ?elem_of_nil;
    intros H; repeat destruct H as [H|H]; discriminate || contradiction.
Qed.

(** X21: when the loop of [main] ends because the machine is halted, and
    it was entered with a running machine, the banner is the last thing
    printed and is printed once, and the machine is not waiting for
    input.  Entered with a halted machine, the loop prints nothing and
    reads nothing. *)
Theorem main_loop_finished (fuel : nat) :
  forall (sim sim' : Simulator) (stdin stdin' : list string)
         (out : list printed),
    main_loop fuel sim stdin = (sim', stdin', out, Finished) ->
    halted sim' = true
    /\ (halted sim = true -> sim' = sim /\ stdin' = stdin /\ out = [])
    /\ (halted sim = false ->
        awaiting_input sim' = false
        /\ exists before, out = before ++ [Banner] /\ Banner ∉ before).
Proof.
  assert (Hstart : forall fuel sim stdin,
            halted sim = true ->
            main_loop fuel sim stdin = (sim, stdin, [], Finished)).
  { intros [|f] sim stdin H; simpl; rewrite H; reflexivity. }
  induction fuel as [|fuel IH]; intros sim sim' stdin stdin' out; simpl.
  - destruct (halted sim) eqn:Hh; [|discriminate].
    intros [= <- <- <-]. repeat split; try congruence.
  - destruct (halted sim) eqn:Hh.
    { intros [= <- <- <-]. repeat split; try congruence. }
    destruct (step sim) as [sim1 [output|e]] eqn:Hstep; [|discriminate].
    destruct (banner_not_shown output) as [Hshown1 Hshown2].
    assert (Hnext : forall sim2 stdin2 shown,
              awaiting_input sim2 = false -> Banner ∉ shown ->
              (let banner := if halted sim2 then [Banner] else [] in
               let '(s', i', o, e) := main_loop fuel sim2 stdin2 in
               (s', i', shown ++ banner ++ o, e))
              = (sim', stdin', out, Finished) ->
              halted sim' = true
              /\ (false = true -> sim' = sim /\ stdin' = stdin /\ out = [])
              /\ (false = false ->
                  awaiting_input sim' = false
                  /\ exists before, out = before ++ [Banner]
                                    /\ Banner ∉ before)).
    { intros sim2 stdin2 shown Hwait Hshown. cbv zeta.
      destruct (halted sim2) eqn:Hh2.
      - rewrite (Hstart fuel sim2 stdin2 Hh2). intros [= <- <- <-].
        split; [exact Hh2|]. split; [discriminate|]. intros _.
        split; [exact Hwait|]. exists shown.
        split; [reflexivity | exact Hshown].
      - destruct (main_loop fuel sim2 stdin2) as [[[s' i'] o] e] eqn:Hrec.
        intros [= <- <- <- ->].
        destruct (IH _ _ _ _ _ Hrec) as (Hfin & _ & Hrun).
        destruct (Hrun Hh2) as (Hw & before & -> & Hb).
        split; [exact Hfin|]. split; [discriminate|]. intros _.
        split; [exact Hw|]. exists (shown ++ before).
        rewrite <- app_assoc. split; [reflexivity|].
        rewrite elem_of_app. tauto. }
    destruct (awaiting_input sim1) eqn:Hw1.
    + destruct (read_input sim1 stdin) as [[sim2 stdin2] [e|]] eqn:Hread.
      * intros [= <- <- <- ->].
        apply read_input_spec in Hread as (_ & _ & _ & Hf & _). congruence.
      * apply read_input_spec in Hread as (Hnone & _).
        destruct (Hnone eq_refl) as (Hw2 & _ & _).
        intros H. apply (Hnext sim2 stdin2 (_ ++ [Prompt]) Hw2 Hshown1).
        cbv zeta. rewrite <- H.
        destruct (main_loop fuel sim2 stdin2) as [[[? ?] ?] ?].
        rewrite <- !app_assoc. reflexivity.
    + intros H. exact (Hnext sim1 stdin _ Hw1 Hshown2 H).
Qed.

Lemma main_loop_finished_witness :
  exists sim',
    main_loop 5 (load_program idle [901; 902; 0]%Z).1 ["7"]
    = (sim', [], [Prompt; Value 7; Banner], Finished)
    /\ halted sim' = true.
Proof.
  destruct (main_loop 5 (load_program idle [901; 902; 0]%Z).1 ["7"])
    as [[[sim' stdin'] out] e] eqn:Hrun.
  assert (Hshape : (stdin', out, e)
                   = ([], [Prompt; Value 7%Z; Banner], Finished)).
  { vm_compute in Hrun. injection Hrun as _ <- <- <-. reflexivity. }
  injection Hshape as -> -> ->.
  exists sim'. split; [reflexivity|].
  exact (proj1 (main_loop_finished 5 _ _ _ _ _ Hrun)).
Defined.

(** X22: the loop of [main] reads one line of input for each prompt, in
    order, and nothing else: what is left of the input is the input
    without its first lines, as many as there are prompts in the output;
    when [input] meets the end of the input, the last prompt stays
    unanswered. *)
Theorem main_loop_input (fuel : nat) :
  forall (sim sim' : Simulator) (stdin stdin' : list string)
         (out : list printed) (e : ending),
    main_loop fuel sim stdin = (sim', stdin', out, e) ->
    stdin' = drop (prompts out - unanswered e) stdin
    /\ prompts out - unanswered e <= length stdin
    /\ (e = EndOfInput -> stdin' = [] /\ 0 < prompts out).
Proof.
  assert (Hshown : forall output : option Z,
            prompts match output with Some v => [Value v] | None => [] end
            = 0).
  { intros [v|]; reflexivity. }
  assert (Happ : forall a b, prompts (a ++ b) = prompts a + prompts b).
  { intros a b. unfold prompts. rewrite List.filter_app, length_app.
    reflexivity. }
  assert (Hbanner : forall b : bool,
            prompts (if b then [Banner] else []) = 0).
  { intros []; reflexivity. }
  induction fuel as [|fuel IH]; intros sim sim' stdin stdin' out e; simpl.
  - destruct (halted sim); intros [= <- <- <- <-]; simpl;
      (split; [reflexivity|]); (split; [lia | discriminate]).
  - destruct (halted sim).
    { intros [= <- <- <- <-]. simpl.
      split; [reflexivity|]. split; [lia | discriminate]. }
    destruct (step sim) as [sim1 [output|x]].
    2: { intros [= <- <- <- <-]. simpl.
         split; [reflexivity|]. split; [lia | discriminate]. }
    destruct (awaiting_input sim1).
    + destruct (read_input sim1 stdin) as [[sim2 stdin2] [stop|]] eqn:Hread.
      * intros [= <- <- <- <-].
        apply read_input_spec in Hread as (_ & Hline & Heof & Hf & Ho).
        rewrite Happ, Hshown. change (prompts [Prompt]) with 1.
        destruct stop as [|x| |]; try congruence.
        -- destruct Hline as [line ->]; [congruence|]. simpl.
           split; [reflexivity|]. split; [lia | discriminate].
        -- destruct (Heof eq_refl) as [-> ->]. simpl.
           split; [reflexivity|]. split; [lia|]. intros _. split; [auto|lia].
      * apply read_input_spec in Hread as (Hnone & _).
        destruct (Hnone eq_refl) as (_ & _ & line & ->).
        destruct (main_loop fuel sim2 stdin2) as [[[s' i'] o] e'] eqn:Hrec.
        intros [= <- <- <- <-].
        destruct (IH _ _ _ _ _ _ Hrec) as (Hdrop & Hle & Heof).
        change (prompts (?a ++ Prompt :: ?b))
          with (prompts (a ++ [Prompt] ++ b)).
        rewrite !Happ, Hshown, Hbanner. change (prompts [Prompt]) with 1.
        simpl length.
        assert (Hcase : unanswered e' = 0
                        \/ (e' = EndOfInput /\ unanswered e' = 1)).
        { destruct e'; simpl; auto. }
        destruct Hcase as [H0|[He H1]].
        -- rewrite H0 in *.
           replace (0 + (1 + (0 + prompts o)) - 0) with (S (prompts o - 0))
             by lia.
           simpl. split; [exact Hdrop|]. split; [lia|].
           intros He. rewrite He in H0. discriminate H0.
        -- rewrite H1 in *. destruct (Heof He) as [Hnil Hpos].
           replace (0 + (1 + (0 + prompts o)) - 1) with (S (prompts o - 1))
             by lia.
           simpl. split; [exact Hdrop|]. split; [lia|]. intros _.
           split; [exact Hnil | lia].
    + destruct (main_loop fuel sim1 stdin) as [[[s' i'] o] e'] eqn:Hrec.
      intros [= <- <- <- <-].
      destruct (IH _ _ _ _ _ _ Hrec) as (Hdrop & Hle & Heof).
      rewrite !Happ, Hshown, Hbanner. simpl.
      split; [exact Hdrop|]. split; [exact Hle|]. exact Heof.
Qed.

Lemma main_loop_input_witness :
  exists sim' out e,
    main_loop 9 (load_program idle [901; 902; 901; 0]%Z).1 ["7"; "8"; "9"]
    = (sim', ["9"], out, e).
Proof.
  destruct (main_loop 9 (load_program idle [901; 902; 901; 0]%Z).1
              ["7"; "8"; "9"]) as [[[sim' stdin'] out] e] eqn:Hrun.
  destruct (main_loop_input 9 _ _ _ _ _ _ Hrun) as (Hdrop & _).
  assert (Hout : (out, e) = ([Prompt; Value 7%Z; Prompt; Banner], Finished)).
  { vm_compute in Hrun. injection Hrun as _ _ <- <-. reflexivity. }
  injection Hout as -> ->. simpl in Hdrop. subst stdin'.
  exists sim', [Prompt; Value 7%Z; Prompt; Banner], Finished. reflexivity.
Defined.

(** * Checks on the documented example *)

Example assemble_docstring :
  assemble lmc ("INP" +:+ nl +:+ "  STA count # keep" +:+ nl +:+ nl
                 +:+ "# data" +:+ nl +:+ "count DAT 0" +:+ nl +:+ "HLT")
  = Ok [901; 302; 0; 0]%Z.
Proof. vm_compute. reflexivity. Qed.

(** INP, OUT, HLT with the input 7: the machine waits for the input,
    prints it and halts. *)
Example run_inp_out_hlt :
  let s0 := (load_program idle [901; 902; 0]%Z).1 in
  let s1 := (step s0).1 in
  let s2 := (load_input s1 7).1 in
  awaiting_input s1 = true
  /\ step s2 = (set_pc s2 2, Ok (Some 7%Z))
  /\ halted (step (step s2).1).1 = true.
Proof. vm_compute. auto. Qed.
